(** * BigDefend AI: alert pipeline of the dashboard and of the backend routers

    A shallow embedding of the code that decides which alerts a viewer
    receives, how alerts are created from scored transactions, how their
    status is updated, and how the React hook [useRealTimeData] and the
    [AuthProvider] keep the client state.

    - [Frontend]: [src/types/index.ts], [services/mockData.ts],
      [hooks/useRealTimeData.ts], [contexts/AuthContext.tsx].
    - [Backend]: [app/routers/transaction.py] ([add_transaction]) and
      [app/routers/alerts.py] ([update_alert_status]).

    Numbers that the code only compares against constants (fraud
    probabilities) are rationals; JavaScript and Python strings are
    [string]; optional fields are [option]. *)

From Stdlib Require Import ZArith QArith Lia Lqa.
From stdpp Require Import base strings list gmap pretty.

Close Scope Q_scope.
Open Scope string_scope.

(** [x > y] on numbers, as both languages write it. *)
Definition Qgtb (x y : Q) : bool := negb (Qle_bool x y).

(** Truthiness of an optional string: [undefined]/[None] and the empty
    string are falsy, every other string is truthy. *)
Definition truthy (s : option string) : bool :=
  match s with
  | Some s => negb (bool_decide (s = ""))
  | None => false
  end.

(** ** The dashboard (TypeScript) *)

Module Frontend.

(** [role: 'admin' | 'analyst' | 'client'] *)
Inductive Role := admin | analyst | client.

#[global] Instance Role_eq_dec : EqDecision Role.
Proof. solve_decision. Defined.

Inductive Severity := low | medium | high | critical.

#[global] Instance Severity_eq_dec : EqDecision Severity.
Proof. solve_decision. Defined.

Module User.
Record t := mk {
    id : string;
    email : string;
    name : string;
    role : Role;
    bankId : option string;
    bankName : option string;
    isActive : bool;
    createdAt : string;
  }.
End User.

#[global] Instance User_eq_dec : EqDecision User.t.
Proof. solve_decision. Defined.

(** [features: Record<string, any>] is always [{}] in the code and no
    function reads it; it is left out of the record. *)
Module Transaction.
Record t := mk {
    id : string;
    amount : Q;
    currency : string;
    timestamp : string;
    fromAccount : string;
    toAccount : string;
    type : string;
    status : string;
    riskScore : Q;
    fraudProbability : Q;
    location : string;
    deviceInfo : string;
    bankId : string;
    isBlocked : bool;
    blockedBy : option string;
    blockedAt : option string;
  }.
End Transaction.

(** The status of an alert is one of ['open'], ['investigating'],
    ['resolved'], ['false_positive'] by its type, but [updateAlert]
    stores any string ([status as any]): it is a string here too. *)
Module FraudAlert.
Record t := mk {
    id : string;
    transactionId : string;
    bankId : string;
    severity : Severity;
    type : string;
    description : string;
    timestamp : string;
    status : string;
    assignedTo : option string;
    fraudProbability : Q;
    aiConfidence : Q;
    recommendedAction : string;
  }.

Definition with_status (a : t) (s : string) (who : option string) : t :=
    mk (id a) (transactionId a) (bankId a) (severity a) (type a)
       (description a) (timestamp a) s who (fraudProbability a)
       (aiConfidence a) (recommendedAction a).
End FraudAlert.

(** *** services/mockData.ts *)

Definition mockUsers : list User.t :=
  [ User.mk "1" "admin@bigdefend.ai" "Admin BigDefend" admin None None
            true "2024-01-01T00:00:00Z";
    User.mk "2" "analyst@bnp.fr" "Jean Dupont" analyst (Some "bnp")
            (Some "BNP Paribas") true "2024-01-02T00:00:00Z";
    User.mk "3" "client@bnp.fr" "Marie Martin" client (Some "bnp")
            (Some "BNP Paribas") true "2024-01-03T00:00:00Z" ].

(** [tx.fraudProbability > 0.9 ? 'critical' : tx.fraudProbability > 0.8 ? 'high' : 'medium'] *)
Definition severityOf (p : Q) : Severity :=
  if Qgtb p 0.9 then critical else if Qgtb p 0.8 then high else medium.

Definition statusOf (p : Q) : string :=
  if Qgtb p 0.95 then "investigating" else "open".

Definition recommendedActionOf (p : Q) : string :=
  if Qgtb p 0.9 then "block" else if Qgtb p 0.8 then "investigate" else "review".

Section GenerateMockAlerts.
(** The description is built with [toFixed] and the confidence is
    drawn with [Math.random]; both are taken as given. *)
Variable describe : Transaction.t -> string.
Variable random : nat -> Q.

Definition mockAlertOf (index : nat) (tx : Transaction.t) : FraudAlert.t :=
    FraudAlert.mk
      ("alert_" +:+ pretty (index + 1)%nat)
      (Transaction.id tx)
      (Transaction.bankId tx)
      (severityOf (Transaction.fraudProbability tx))
      "Suspicious Transaction"
      (describe tx)
      (Transaction.timestamp tx)
      (statusOf (Transaction.fraudProbability tx))
      None
      (Transaction.fraudProbability tx)
      (random index * 0.3 + 0.7)%Q
      (recommendedActionOf (Transaction.fraudProbability tx)).

Definition generateMockAlerts (transactions : list Transaction.t)
    : list FraudAlert.t :=
    imap mockAlertOf
      (filter (fun tx => Qgtb (Transaction.fraudProbability tx) 0.7 = true)
              transactions).
End GenerateMockAlerts.

(** *** hooks/useRealTimeData.ts *)

(** The state cells of the hook. [riskMetrics] only ever holds what the
    server or the mock module supplied and is not inspected; it is kept
    as an opaque payload. *)
Record HookState := mkHook {
  transactions : list Transaction.t;
  alerts : list FraudAlert.t;
  riskMetrics : option string;
  loading : bool;
  error : option string;
  isConnected : bool;
}.

(** [useState] initial values. *)
Definition initialHook : HookState := mkHook [] [] None true None false.

Definition setTransactions (f : list Transaction.t -> list Transaction.t)
  (st : HookState) : HookState :=
  mkHook (f (transactions st)) (alerts st) (riskMetrics st) (loading st)
         (error st) (isConnected st).

Definition setAlerts (f : list FraudAlert.t -> list FraudAlert.t)
  (st : HookState) : HookState :=
  mkHook (transactions st) (f (alerts st)) (riskMetrics st) (loading st)
         (error st) (isConnected st).

Definition setRiskMetrics (m : option string) (st : HookState) : HookState :=
  mkHook (transactions st) (alerts st) m (loading st) (error st)
         (isConnected st).

Definition setLoading (b : bool) (st : HookState) : HookState :=
  mkHook (transactions st) (alerts st) (riskMetrics st) b (error st)
         (isConnected st).

Definition setError (e : option string) (st : HookState) : HookState :=
  mkHook (transactions st) (alerts st) (riskMetrics st) (loading st) e
         (isConnected st).

Definition setIsConnected (b : bool) (st : HookState) : HookState :=
  mkHook (transactions st) (alerts st) (riskMetrics st) (loading st)
         (error st) b.

(** [const bankId = user.role === 'admin' ? undefined : user.bankId] *)
Definition viewerBankId (user : User.t) : option string :=
  if decide (User.role user = admin) then None else User.bankId user.

(** [bankId ? mockAlerts.filter(alert => alert.bankId === bankId) : mockAlerts] *)
Definition filterAlerts (bankId : option string) (mockAlerts : list FraudAlert.t)
  : list FraudAlert.t :=
  if truthy bankId
  then filter (fun alert => Some (FraudAlert.bankId alert) = bankId) mockAlerts
  else mockAlerts.

Definition filterTransactions (bankId : option string)
  (mockTransactions : list Transaction.t) : list Transaction.t :=
  if truthy bankId
  then filter (fun tx => Some (Transaction.bankId tx) = bankId) mockTransactions
  else mockTransactions.

(** The visibility predicate that [loadInitialData] applies to each
    alert for a viewer: the guard [bankId ? ... : mockAlerts] and the
    filter's test, for one alert. *)
Definition CanSee (alert : FraudAlert.t) (viewer : User.t) : bool :=
  if truthy (viewerBankId viewer)
  then bool_decide (Some (FraudAlert.bankId alert) = viewerBankId viewer)
  else true.

Section LoadInitialData.
(** The module-level mock collections ([mockTransactions], [mockAlerts],
    [mockRiskMetrics]) are generated once with [Math.random]. *)
Variable mockTransactions : list Transaction.t.
Variable mockAlerts : list FraudAlert.t.
Variable mockRiskMetrics : string.

(** [api] is the outcome of the three REST calls under [Promise.all]:
    [Some] when all resolve, [None] when one rejects. *)
Definition loadInitialData (user : option User.t)
  (api : option (list Transaction.t * list FraudAlert.t * string))
  (st : HookState) : HookState :=
  match user with
  | None => st
  | Some user =>
    let st := setError None (setLoading true st) in
    let bankId := viewerBankId user in
    let st :=
      match api with
      | Some (txns, alts, metrics) =>
        setRiskMetrics (Some metrics)
          (setAlerts (fun _ => alts) (setTransactions (fun _ => txns) st))
      | None =>
        let filteredTransactions := filterTransactions bankId mockTransactions in
        let filteredAlerts := filterAlerts bankId mockAlerts in
        setRiskMetrics (Some mockRiskMetrics)
          (setAlerts (fun _ => filteredAlerts)
             (setTransactions (fun _ => filteredTransactions) st))
      end in
    setLoading false st
  end.
End LoadInitialData.

(** WebSocket event handlers. *)

(** [setTransactions(prev => [transaction, ...prev.slice(0, 99)])] *)
Definition handleNewTransaction (transaction : Transaction.t) : HookState -> HookState :=
  setTransactions (fun prev => transaction :: take 99 prev).

(** [setAlerts(prev => [alert, ...prev])] *)
Definition handleFraudAlert (alert : FraudAlert.t) : HookState -> HookState :=
  setAlerts (fun prev => alert :: prev).

Definition handleRiskUpdate (metrics : string) : HookState -> HookState :=
  setRiskMetrics (Some metrics).

Definition handleConnected : HookState -> HookState := setIsConnected true.
Definition handleDisconnected : HookState -> HookState := setIsConnected false.
Definition handleError : HookState -> HookState := setIsConnected false.

(** The messages [wsService] emits to the listeners the hook registers. *)
Inductive WsEvent :=
| newTransaction (transaction : Transaction.t)
| fraudAlert (alert : FraudAlert.t)
| riskUpdate (metrics : string)
| connected
| disconnected
| wsError.

Definition onEvent (st : HookState) (ev : WsEvent) : HookState :=
  match ev with
  | newTransaction t => handleNewTransaction t st
  | fraudAlert a => handleFraudAlert a st
  | riskUpdate m => handleRiskUpdate m st
  | connected => handleConnected st
  | disconnected => handleDisconnected st
  | wsError => handleError st
  end.

(** The hook state after a sequence of pushed events, oldest first. *)
Definition onEvents (evs : list WsEvent) (st : HookState) : HookState :=
  foldl onEvent st evs.

(** How an awaited call of the hook ends for its caller. *)
Inductive Settled := Resolved | Rejected (message : string).

#[global] Instance Settled_eq_dec : EqDecision Settled.
Proof. solve_decision. Defined.

(** [updateAlert(alertId, status, assignedTo?)]. [api] is the outcome of
    [alertsAPI.updateAlertStatus]: [Some updatedAlert] when the PUT
    resolves, [None] when it rejects. The [catch] block only logs to the
    console and patches the local list, so the returned promise resolves
    in both cases. *)
Definition updateAlert (alertId status : string) (assignedTo : option string)
  (api : option FraudAlert.t) (st : HookState) : Settled * HookState :=
  match api with
  | Some updatedAlert =>
    (Resolved,
     setAlerts (fun prev =>
       (fun alert => if decide (FraudAlert.id alert = alertId)
                     then updatedAlert else alert) <$> prev) st)
  | None =>
    (Resolved,
     setAlerts (fun prev =>
       (fun alert => if decide (FraudAlert.id alert = alertId)
                     then FraudAlert.with_status alert status assignedTo
                     else alert) <$> prev) st)
  end.

(** *** contexts/AuthContext.tsx *)

(** The provider's [user] cell together with the browser's
    [localStorage]. *)
Record AuthState := mkAuth {
  user : option User.t;
  localStorage : gmap string string;
}.

Definition setItem (k v : string) (st : AuthState) : AuthState :=
  mkAuth (user st) (<[k := v]> (localStorage st)).

Definition removeItem (k : string) (st : AuthState) : AuthState :=
  mkAuth (user st) (delete k (localStorage st)).

Definition setUser (u : option User.t) (st : AuthState) : AuthState :=
  mkAuth u (localStorage st).

(** Outcome of one REST call: the response body, or a rejection with
    the HTTP status when there is a response. *)
Inductive Response (A : Type) :=
| Ok (data : A)
| Failed (httpStatus : option Z).
Arguments Ok {A} data.
Arguments Failed {A} httpStatus.

(** The response interceptor of [services/api.ts]: on a 401 the token
    is removed (the redirect to [/login] is a navigation, outside the
    state modelled here); the error is rejected again in every case. *)
Definition interceptError (httpStatus : option Z) (st : AuthState) : AuthState :=
  if decide (httpStatus = Some 401%Z) then removeItem "auth_token" st else st.

(** The [catch] block of [login]. *)
Definition mockLogin (email password : string) (st : AuthState)
  : Settled * AuthState :=
  match find (fun u => bool_decide (User.email u = email)) mockUsers with
  | Some mockUser =>
    if decide (password = "demo123")
    then (Resolved,
          setUser (Some mockUser)
            (setItem "mock_user_email" email
               (setItem "auth_token" ("mock_token_" +:+ User.id mockUser) st)))
    else (Rejected "Invalid credentials", st)
  | None => (Rejected "Invalid credentials", st)
  end.

(** [login(email, password)]. [apiLogin] is the outcome of
    [authAPI.login] (its [access_token]) and [apiMe] the outcome of
    [authAPI.getCurrentUser], which is only awaited after a login that
    resolved. *)
Definition login (email password : string)
  (apiLogin : Response string) (apiMe : Response User.t)
  (st : AuthState) : Settled * AuthState :=
  match apiLogin with
  | Ok access_token =>
    let st := setItem "auth_token" access_token st in
    match apiMe with
    | Ok currentUser => (Resolved, setUser (Some currentUser) st)
    | Failed code => mockLogin email password (interceptError code st)
    end
  | Failed code => mockLogin email password (interceptError code st)
  end.

(** "The backend authentication API call fails": [login] reaches its
    [catch] block. *)
Definition apiFails (apiLogin : Response string) (apiMe : Response User.t) : bool :=
  match apiLogin, apiMe with
  | Ok _, Ok _ => false
  | _, _ => true
  end.

(** *** hooks/useRealTimeData.ts: blocking transactions *)

(** [{ ...tx, status: 'blocked', isBlocked: true, blockedBy, blockedAt }] *)
Definition markBlocked (tx : Transaction.t) (blockedBy : option string)
  (blockedAt : string) : Transaction.t :=
  Transaction.mk (Transaction.id tx) (Transaction.amount tx)
    (Transaction.currency tx) (Transaction.timestamp tx)
    (Transaction.fromAccount tx) (Transaction.toAccount tx)
    (Transaction.type tx) "blocked" (Transaction.riskScore tx)
    (Transaction.fraudProbability tx) (Transaction.location tx)
    (Transaction.deviceInfo tx) (Transaction.bankId tx)
    true blockedBy (Some blockedAt).

(** [{ ...tx, status: 'completed', isBlocked: false, blockedBy: undefined,
      blockedAt: undefined }] *)
Definition markUnblocked (tx : Transaction.t) : Transaction.t :=
  Transaction.mk (Transaction.id tx) (Transaction.amount tx)
    (Transaction.currency tx) (Transaction.timestamp tx)
    (Transaction.fromAccount tx) (Transaction.toAccount tx)
    (Transaction.type tx) "completed" (Transaction.riskScore tx)
    (Transaction.fraudProbability tx) (Transaction.location tx)
    (Transaction.deviceInfo tx) (Transaction.bankId tx)
    false None None.

(** [blockTransaction(transactionId, reason)]. [user] is the logged-in
    user the callback closes over, [now] the reading of
    [new Date().toISOString()], and [api] the outcome of
    [transactionsAPI.blockTransaction]. *)
Definition blockTransaction (user : option User.t) (now : string)
  (transactionId reason : string) (api : option Transaction.t)
  (st : HookState) : Settled * HookState :=
  match api with
  | Some updatedTransaction =>
    (Resolved,
     setTransactions (fun prev =>
       (fun tx => if decide (Transaction.id tx = transactionId)
                  then updatedTransaction else tx) <$> prev) st)
  | None =>
    (Resolved,
     setTransactions (fun prev =>
       (fun tx => if decide (Transaction.id tx = transactionId)
                  then markBlocked tx (User.name <$> user) now
                  else tx) <$> prev) st)
  end.

(** [unblockTransaction(transactionId)] *)
Definition unblockTransaction (transactionId : string)
  (api : option Transaction.t) (st : HookState) : Settled * HookState :=
  match api with
  | Some updatedTransaction =>
    (Resolved,
     setTransactions (fun prev =>
       (fun tx => if decide (Transaction.id tx = transactionId)
                  then updatedTransaction else tx) <$> prev) st)
  | None =>
    (Resolved,
     setTransactions (fun prev =>
       (fun tx => if decide (Transaction.id tx = transactionId)
                  then markUnblocked tx else tx) <$> prev) st)
  end.

(** *** services/mockData.ts: the fields [generateMockTransactions]
    derives from the drawn probability *)

(** [fraudProbability > 0.8 ? 'flagged' : fraudProbability > 0.9 ? 'blocked' : 'completed'] *)
Definition mockTransactionStatus (fraudProbability : Q) : string :=
  if Qgtb fraudProbability 0.8 then "flagged"
  else if Qgtb fraudProbability 0.9 then "blocked" else "completed".

(** [isBlocked: fraudProbability > 0.9] *)
Definition mockIsBlocked (fraudProbability : Q) : bool :=
  Qgtb fraudProbability 0.9.

(** *** pages/Dashboard.tsx: the figures of the cards *)

Definition totalTransactions (transactions : list Transaction.t) : nat :=
  length transactions.

(** [transactions.filter(tx => tx.fraudProbability > 0.7).length] *)
Definition fraudTransactions (transactions : list Transaction.t) : nat :=
  length (filter (fun tx => Qgtb (Transaction.fraudProbability tx) 0.7 = true)
                 transactions).

(** [transactions.filter(tx => tx.isBlocked).length] *)
Definition blockedTransactions (transactions : list Transaction.t) : nat :=
  length (filter (fun tx => Transaction.isBlocked tx = true) transactions).

(** [alerts.filter(a => a.status === 'open' || a.status === 'investigating').length] *)
Definition activeAlerts (alerts : list FraudAlert.t) : nat :=
  length (filter (fun a => FraudAlert.status a = "open" \/
                           FraudAlert.status a = "investigating") alerts).

(** [totalTransactions > 0 ? fraudTransactions / totalTransactions : 0] *)
Definition fraudRate (transactions : list Transaction.t) : Q :=
  if decide (0 < totalTransactions transactions)%nat
  then (inject_Z (Z.of_nat (fraudTransactions transactions)) /
        inject_Z (Z.of_nat (totalTransactions transactions)))%Q
  else 0%Q.

(** [transactions.length > 0
      ? transactions.reduce((sum, tx) => sum + tx.riskScore, 0) / transactions.length
      : 0] *)
Definition avgRiskScore (transactions : list Transaction.t) : Q :=
  if decide (0 < length transactions)%nat
  then (foldl (fun sum tx => sum + Transaction.riskScore tx) 0 transactions /
        inject_Z (Z.of_nat (length transactions)))%Q
  else 0%Q.

(** *** pages/Transactions.tsx: the filters of the table *)

(** [statusFilter === 'all' || tx.status === statusFilter] *)
Definition matchesStatus (statusFilter : string) (tx : Transaction.t) : bool :=
  bool_decide (statusFilter = "all") ||
  bool_decide (Transaction.status tx = statusFilter).

Definition matchesRisk (riskFilter : string) (tx : Transaction.t) : bool :=
  bool_decide (riskFilter = "all") ||
  (bool_decide (riskFilter = "high") &&
     Qgtb (Transaction.fraudProbability tx) 0.7) ||
  (bool_decide (riskFilter = "medium") &&
     Qgtb (Transaction.fraudProbability tx) 0.4 &&
     Qle_bool (Transaction.fraudProbability tx) 0.7) ||
  (bool_decide (riskFilter = "low") &&
     Qle_bool (Transaction.fraudProbability tx) 0.4).

Section FilteredTransactions.
(** The search test lower-cases and looks for a substring in three
    fields; it is taken as given. *)
Variable matchesSearch : string -> Transaction.t -> bool.

Definition filteredTransactions (searchTerm statusFilter riskFilter : string)
  (transactions : list Transaction.t) : list Transaction.t :=
  filter (fun tx => matchesSearch searchTerm tx && matchesStatus statusFilter tx
                    && matchesRisk riskFilter tx = true) transactions.
End FilteredTransactions.

(** *** utils/formatters.ts *)

Definition Qgeb (x y : Q) : bool := Qle_bool y x.

Definition getRiskColor (score : Q) : string :=
  if Qgeb score 0.8 then "text-red-600 bg-red-50"
  else if Qgeb score 0.6 then "text-orange-600 bg-orange-50"
  else if Qgeb score 0.4 then "text-yellow-600 bg-yellow-50"
  else "text-green-600 bg-green-50".

(** *** pages/Simulation.tsx: the progress timer *)

(** The cells the interval callback touches, and whether the interval
    is still scheduled. *)
Record SimulationState := mkSimulation {
  progress : Z;
  isRunning : bool;
  intervalActive : bool;
}.

(** One firing of the callback given to [setInterval]:
    [prev >= 100 ? (clearInterval, setIsRunning(false), 100) : prev + 10]. *)
Definition tick (st : SimulationState) : SimulationState :=
  if intervalActive st then
    if (100 <=? progress st)%Z
    then mkSimulation 100 false false
    else mkSimulation (progress st + 10) (isRunning st) true
  else st.

(** [handleStartSimulation], whichever way the REST call ends: the run
    flag is raised and the interval is scheduled. *)
Definition handleStartSimulation (st : SimulationState) : SimulationState :=
  mkSimulation (progress st) true true.

(** [handleStopSimulation]: the cells are reset; the interval, which
    only the start handler holds, is not cleared. *)
Definition handleStopSimulation (st : SimulationState) : SimulationState :=
  mkSimulation 0 false (intervalActive st).

(** *** contexts/AuthContext.tsx: leaving and restoring a session *)

Definition getItem (k : string) (st : AuthState) : option string :=
  localStorage st !! k.

Definition logout (st : AuthState) : AuthState :=
  setUser None (removeItem "mock_user_email" (removeItem "auth_token" st)).

(** [initAuth], run once when the provider mounts. [apiMe] is the
    outcome of [authAPI.getCurrentUser], awaited only when a token is
    stored. The second component is the [loading] cell afterwards. *)
Definition initAuth (apiMe : Response User.t) (st : AuthState)
  : AuthState * bool :=
  let st :=
    if truthy (getItem "auth_token" st) then
      match apiMe with
      | Ok currentUser => setUser (Some currentUser) st
      | Failed code =>
        let st := interceptError code st in
        match find (fun u => bool_decide
                      (Some (User.email u) = getItem "mock_user_email" st))
                   mockUsers with
        | Some mockUser => setUser (Some mockUser) st
        | None => removeItem "mock_user_email" (removeItem "auth_token" st)
        end
      end
    else st in
  (st, false).

(** The request interceptor of [services/api.ts]: the [Authorization]
    header it adds, if any. *)
Definition authorizationHeader (st : AuthState) : option string :=
  match getItem "auth_token" st with
  | Some token => if truthy (Some token) then Some ("Bearer " +:+ token) else None
  | None => None
  end.

(** *** services/websocketService.ts *)

Module WebSocketService.
(** A callback is a function object; [off] compares callbacks by
    identity, which a number stands for here. *)
Abbreviation WebSocketCallback := nat (only parsing).

(** The registry is [listeners: { [event: string]: WebSocketCallback[] }]. *)



End WebSocketService.

(** *** App.tsx and components/Layout/Sidebar.tsx *)

Inductive Element :=
| Spinner
| LoginPage
| DashboardPage
| AlertsPage
| TransactionsPage
| SimulationPage
| Navigate (to : string).

#[global] Instance Element_eq_dec : EqDecision Element.
Proof. solve_decision. Defined.

(** The element [AppRoutes] renders for a location. *)
Definition AppRoutes (loading : bool) (user : option User.t) (path : string)
  : Element :=
  if loading then Spinner else
  match user with
  | None =>
    if decide (path = "/login") then LoginPage else Navigate "/login"
  | Some user =>
    if decide (path = "/login") then Navigate "/dashboard"
    else if decide (path = "/") then Navigate "/dashboard"
    else if decide (path = "/dashboard") then DashboardPage
    else if decide (User.role user = admin \/ User.role user = analyst) then
      if decide (path = "/alerts") then AlertsPage
      else if decide (path = "/transactions") then TransactionsPage
      else if decide (path = "/simulation") then SimulationPage
      else Navigate "/dashboard"
    else
      if decide (path = "/my-transactions") then TransactionsPage
      else Navigate "/dashboard"
  end.

(** [getNavigationItems]: the targets and labels of the sidebar links
    (the icons are left out). *)
Definition getNavigationItems (user : option User.t) : list (string * string) :=
  let baseItems := [("/dashboard", "Dashboard")] in
  match User.role <$> user with
  | Some admin =>
    baseItems ++ [("/alerts", "Alertes IA"); ("/transactions", "Transactions");
                  ("/banks", "Banques"); ("/users", "Utilisateurs");
                  ("/ai-model", "Modèle IA"); ("/simulation", "Simulation");
                  ("/settings", "Paramètres")]
  | Some analyst =>
    baseItems ++ [("/alerts", "Alertes IA"); ("/transactions", "Transactions");
                  ("/analytics", "Analyses"); ("/simulation", "Simulation")]
  | Some client =>
    baseItems ++ [("/my-transactions", "Mes Transactions")]
  | None => baseItems
  end%list.

End Frontend.

(** ** The backend routers (Python) *)

Module Backend.

(** [app/models/user.py]: [role = Column(String, default="client")]. *)
Module User.
Record t := mk {
  id : Z;
  name : string;
  role : string;
}.
End User.

(** Request body of [POST /transactions/add]. *)
Module TransactionCreate.
Record t := mk {
  banque_id : Z;
  transaction_amount : Q;
  timestamp : string;
}.
End TransactionCreate.

(** [app/models/transaction.py] *)
Module Transaction.
Record t := mk {
  id : Z;
  banque_id : Z;
  transaction_amount : Q;
  timestamp : string;
  is_fraud : bool;
  fraud_probability : Q;
}.
End Transaction.

(** [app/models/alert.py], with the [assigned_to] attribute that
    [update_alert_status] writes. [date] is [datetime.utcnow] at
    insertion. *)
Module Alert.
Record t := mk {
  id : Z;
  transaction_id : Z;
  banque_id : Z;
  fraud_probability : Q;
  message : string;
  status : string;
  assigned_to : option string;
  date : Z;
}.
End Alert.

(** [app/schemas/alert.py]: both fields are optional. *)
Module AlertUpdate.
Record t := mk {
  status : option string;
  assigned_to : option string;
}.
End AlertUpdate.

Record HTTPException := mkHTTPException {
  status_code : Z;
  detail : string;
}.

#[global] Instance HTTPException_eq_dec : EqDecision HTTPException.
Proof. solve_decision. Defined.

(** The two tables behind the SQLAlchemy session, keyed by their integer
    primary key, with the next key each sequence hands out. *)
Record Db := mkDb {
  transactions : gmap Z Transaction.t;
  alerts : gmap Z Alert.t;
  next_transaction_id : Z;
  next_alert_id : Z;
}.

Definition empty_db : Db := mkDb ∅ ∅ 1 1.

(** [db.add(new_transaction); db.commit(); db.refresh(new_transaction)] *)
Definition add_transaction_row
  (row : Z -> Transaction.t) (db : Db) : Transaction.t * Db :=
  let new_transaction := row (next_transaction_id db) in
  (new_transaction,
   mkDb (<[next_transaction_id db := new_transaction]> (transactions db))
        (alerts db)
        (next_transaction_id db + 1)
        (next_alert_id db)).

(** [db.add(alert); db.commit(); db.refresh(alert)] *)
Definition add_alert_row (row : Z -> Alert.t) (db : Db) : Alert.t * Db :=
  let alert := row (next_alert_id db) in
  (alert,
   mkDb (transactions db)
        (<[next_alert_id db := alert]> (alerts db))
        (next_transaction_id db)
        (next_alert_id db + 1)).

(** [fraud_threshold = 0.8] *)
Definition fraud_threshold : Q := 0.8.

Section AddTransaction.
(** [predict_fraud] is the scoring service (it returns a float for every
    input: its own [except] yields [0.0]); [format_message] renders the
    f-string of the alert message. *)
Variable predict_fraud : TransactionCreate.t -> Q.
Variable format_message : Q -> string.

(** [add_transaction(transaction, db)] of [app/routers/transaction.py];
    [utcnow] is the clock reading used for the alert's [date]. *)
Definition add_transaction (transaction : TransactionCreate.t) (utcnow : Z)
  (db : Db) : Transaction.t * Db :=
  let fraud_score := predict_fraud transaction in
  let is_fraud := Qgtb fraud_score fraud_threshold in
  let '(new_transaction, db) :=
    add_transaction_row
      (fun id => Transaction.mk id
                   (TransactionCreate.banque_id transaction)
                   (TransactionCreate.transaction_amount transaction)
                   (TransactionCreate.timestamp transaction)
                   is_fraud fraud_score) db in
  if is_fraud then
    let '(alert, db) :=
      add_alert_row
        (fun id => Alert.mk id
                     (Transaction.id new_transaction)
                     (Transaction.banque_id new_transaction)
                     fraud_score
                     (format_message fraud_score)
                     "open" None utcnow) db in
    (new_transaction, db)
  else (new_transaction, db).
End AddTransaction.

(** [get_analyst_or_admin_user]: the dependency that guards the update
    endpoint. *)
Definition get_analyst_or_admin_user (current_user : User.t)
  : HTTPException + User.t :=
  if bool_decide (User.role current_user ∈ ["analyst"; "admin"])
  then inr current_user
  else inl (mkHTTPException 403 "Not enough permissions to update alerts").

(** The body of [update_alert_status] between the lookup and the
    commit: each field is overwritten when the request carries a truthy
    value for it. *)
Definition apply_update (alert_update : AlertUpdate.t) (alert : Alert.t) : Alert.t :=
  let status :=
    match AlertUpdate.status alert_update with
    | Some s => if truthy (Some s) then s else Alert.status alert
    | None => Alert.status alert
    end in
  let assigned_to :=
    if truthy (AlertUpdate.assigned_to alert_update)
    then AlertUpdate.assigned_to alert_update
    else Alert.assigned_to alert in
  Alert.mk (Alert.id alert) (Alert.transaction_id alert) (Alert.banque_id alert)
           (Alert.fraud_probability alert) (Alert.message alert)
           status assigned_to (Alert.date alert).

(** [PUT /alerts/{alert_id}/status] *)
Definition update_alert_status (alert_id : Z) (alert_update : AlertUpdate.t)
  (current_user : User.t) (db : Db) : (HTTPException + Alert.t) * Db :=
  match get_analyst_or_admin_user current_user with
  | inl e => (inl e, db)
  | inr current_user =>
    match alerts db !! alert_id with
    | None => (inl (mkHTTPException 404 "Alert not found"), db)
    | Some alert =>
      let alert := apply_update alert_update alert in
      (inr alert,
       mkDb (transactions db) (<[alert_id := alert]> (alerts db))
            (next_transaction_id db) (next_alert_id db))
    end
  end.

(** *** app/routers/transaction.py: reading *)

(** [db.query(Transaction).filter(Transaction.banque_id == banque_id).all()] *)
Definition get_transactions_by_banque (banque_id : Z) (db : Db)
  : list Transaction.t :=
  filter (fun t => Transaction.banque_id t = banque_id)
         ((map_to_list (transactions db)).*2).

(** *** app/services/fraud_detection.py *)

Section PredictFraud.
(** The loaded model and scaler are module globals that are [None] when
    loading failed. [run] is the body of the [try] block (validation,
    preprocessing, scaling, [predict_proba]); it yields [None] when an
    exception is raised. *)
Context {Model Scaler : Type}.
Variable run : Model -> Scaler -> TransactionCreate.t -> option Q.

Definition predict_fraud (model : option Model) (scaler : option Scaler)
  (transaction_dict : TransactionCreate.t) : Q :=
  match model, scaler with
  | Some model, Some scaler =>
    match run model scaler transaction_dict with
    | Some prob_fraud => prob_fraud
    | None => 0%Q
    end
  | _, _ => 0%Q
  end.
End PredictFraud.

(** *** app/services/websocket_manager.py *)

Module ConnectionManager.
(** A connection object, compared by identity. *)
Abbreviation WebSocket := nat (only parsing).

(** The table is [active_connections: Dict[str, List[WebSocket]]], in
    insertion order, which is the order [disconnect] scans it in. *)

Definition empty : list (string * list WebSocket) := [].

(** [d.get(user_id)] *)
Fixpoint get (user_id : string) (d : list (string * list WebSocket))
  : option (list WebSocket) :=
  match d with
  | [] => None
  | (u, conns) :: d => if decide (u = user_id) then Some conns else get user_id d
  end.

(** [d[user_id] = conns]: in place for a known key, at the end for a
    new one. *)
Fixpoint set (user_id : string) (conns : list WebSocket)
  (d : list (string * list WebSocket)) : list (string * list WebSocket) :=
  match d with
  | [] => [(user_id, conns)]
  | (u, c) :: d =>
    if decide (u = user_id) then (u, conns) :: d else (u, c) :: set user_id conns d
  end.

(** [del d[user_id]] *)
Fixpoint del (user_id : string) (d : list (string * list WebSocket))
  : list (string * list WebSocket) :=
  match d with
  | [] => []
  | (u, c) :: d => if decide (u = user_id) then d else (u, c) :: del user_id d
  end.

(** [list.remove(x)]: the first occurrence only. *)
Fixpoint remove (x : WebSocket) (l : list WebSocket) : list WebSocket :=
  match l with
  | [] => []
  | y :: l => if decide (y = x) then l else y :: remove x l
  end.

Definition connect (websocket : WebSocket) (user_id : string)
  (d : list (string * list WebSocket)) : list (string * list WebSocket) :=
  let d := match get user_id d with
           | None => set user_id [] d
           | Some _ => d
           end in
  set user_id (default [] (get user_id d) ++ [websocket])%list d.

(** The loop of [disconnect]: the first user, in dictionary order,
    whose list holds the connection. *)
Fixpoint find_user (websocket : WebSocket) (d : list (string * list WebSocket))
  : option string :=
  match d with
  | [] => None
  | (user_id, connections) :: d =>
    if bool_decide (websocket ∈ connections) then Some user_id
    else find_user websocket d
  end.

Definition disconnect (websocket : WebSocket)
  (d : list (string * list WebSocket)) : list (string * list WebSocket) :=
  match find_user websocket d with
  | Some found_user_id =>
    let d := set found_user_id
               (remove websocket (default [] (get found_user_id d))) d in
    if truthy (Some found_user_id) &&
       bool_decide (default [] (get found_user_id d) = [])
    then del found_user_id d
    else d
  | None => d
  end.

(** [send_personal_message(message, user_id)]. [send_json] tells whether
    sending on a connection succeeds or raises; the result lists every
    attempt in order with its outcome. The manager is not modified. *)
Definition send_personal_message (send_json : WebSocket -> bool)
  (user_id : string) (d : list (string * list WebSocket))
  : list (WebSocket * bool) :=
  match get user_id d with
  | Some connections => (fun connection => (connection, send_json connection))
                          <$> connections
  | None => []
  end.
End ConnectionManager.

End Backend.

(** ** The words of the specification, for comparison with the code *)

Module Specification.

(** The edge table of the alert life cycle as the specification lists
    it, on the status strings of the code ([falsePositive] is stored as
    ['false_positive']). *)
Definition allowed_edge (status targetStatus : string) : bool :=
  bool_decide ((status, targetStatus) ∈
    [ ("open", "investigating"); ("open", "resolved");
      ("open", "false_positive"); ("investigating", "resolved");
      ("investigating", "false_positive"); ("investigating", "open") ]).

(** The threshold table of the specification: [None] below the [low]
    bound (no alert), otherwise the highest band whose lower bound the
    score reaches. *)
Definition severity_band (score : Q) : option Frontend.Severity :=
  if Qle_bool 0.95 score then Some Frontend.critical
  else if Qle_bool 0.85 score then Some Frontend.high
  else if Qle_bool 0.7 score then Some Frontend.medium
  else if Qle_bool 0.5 score then Some Frontend.low
  else None.

End Specification.

(** ** Auxiliary definitions used by the statements *)

(** The transaction carried by the most recent [newTransaction] event
    of a sequence (oldest first), if there is one. *)
Definition lastPushed (evs : list Frontend.WsEvent) : option Frontend.Transaction.t :=
  foldl (fun acc ev =>
           match ev with
           | Frontend.newTransaction t => Some t
           | _ => acc
           end) None evs.

(** The alerts carried by the [fraudAlert] events of a sequence, in the
    order they were pushed. *)
Definition pushedAlerts (evs : list Frontend.WsEvent) : list Frontend.FraudAlert.t :=
  omap (fun ev => match ev with Frontend.fraudAlert a => Some a | _ => None end) evs.

(** The transaction and alert rows one call of [add_transaction] writes,
    given the keys the store hands out. *)
Section Rows.
Import Backend.
Variable predict_fraud : TransactionCreate.t -> Q.
Variable format_message : Q -> string.

Definition transaction_row (e : TransactionCreate.t) (id : Z) : Transaction.t :=
  Transaction.mk id (TransactionCreate.banque_id e)
    (TransactionCreate.transaction_amount e) (TransactionCreate.timestamp e)
    (Qgtb (predict_fraud e) fraud_threshold) (predict_fraud e).

Definition alert_row (e : TransactionCreate.t) (utcnow transaction_id id : Z)
  : Alert.t :=
  Alert.mk id transaction_id (TransactionCreate.banque_id e) (predict_fraud e)
    (format_message (predict_fraud e)) "open" None utcnow.
End Rows.

(** Concrete data for the examples. *)
Module Examples.

(** The third entry of [mockUsers]. *)
Definition marie : Frontend.User.t :=
  Frontend.User.mk "3" "client@bnp.fr" "Marie Martin" Frontend.client
    (Some "bnp") (Some "BNP Paribas") true "2024-01-03T00:00:00Z".

(** The second entry of [mockUsers]. *)
Definition jean : Frontend.User.t :=
  Frontend.User.mk "2" "analyst@bnp.fr" "Jean Dupont" Frontend.analyst
    (Some "bnp") (Some "BNP Paribas") true "2024-01-02T00:00:00Z".

(** A transaction of bank [bnp] between two accounts, and the alert the
    mock generator derives from it. *)
Definition tx_scored (fraudProbability : Q) : Frontend.Transaction.t :=
  Frontend.Transaction.mk "tx_1" 1250 "EUR" "2024-01-15T10:30:00Z"
    "ACC017" "ACC512" "transfer" "flagged" 0.4 fraudProbability
    "Paris, France" "Web Browser - Chrome" "bnp" true None None.

Definition tx1 : Frontend.Transaction.t := tx_scored 0.92.

Definition describe (tx : Frontend.Transaction.t) : string :=
  "Transaction flagged by AI model".

Definition random (n : nat) : Q := 0.5.

Definition format_message (fraud_score : Q) : string := "Transaction suspecte".

Definition alert1 : Frontend.FraudAlert.t :=
  Frontend.mockAlertOf describe random 0 tx1.

Definition hook1 : Frontend.HookState :=
  Frontend.mkHook [tx1] [alert1] None false None true.

Definition loggedOut : Frontend.AuthState := Frontend.mkAuth None ∅.

(** Backend rows. *)
Definition analyst_jean : Backend.User.t := Backend.User.mk 2 "Jean Dupont" "analyst".
Definition analyst_anne : Backend.User.t := Backend.User.mk 5 "Anne Leroy" "analyst".

Definition payload : Backend.TransactionCreate.t :=
  Backend.TransactionCreate.mk 7 1250 "2024-01-15T10:30:00".

Definition stored_alert (status : string) (assigned_to : option string)
  : Backend.Alert.t :=
  Backend.Alert.mk 1 1 7 0.92 "Transaction suspecte" status assigned_to 0.

Definition db_with (status : string) (assigned_to : option string) : Backend.Db :=
  Backend.mkDb ∅ {[ 1%Z := stored_alert status assigned_to ]} 2 2.

End Examples.

(** ** Invariants of the stores *)

(** A database whose rows sit under their own id, below the next key of
    their sequence, and whose alerts point to a stored transaction. *)
Definition db_ok (db : Backend.Db) : Prop :=
  (forall k t, Backend.transactions db !! k = Some t ->
     Backend.Transaction.id t = k /\ (k < Backend.next_transaction_id db)%Z) /\
  (forall k a, Backend.alerts db !! k = Some a ->
     Backend.Alert.id a = k /\ (k < Backend.next_alert_id db)%Z /\
     is_Some (Backend.transactions db !! Backend.Alert.transaction_id a)).

(** A connection table as a dictionary can be: one entry per user id;
    and as [connect] and [disconnect] keep it: no entry without a
    connection, no empty user id. *)
Definition manager_ok (d : list (string * list nat)) : Prop :=
  NoDup d.*1 /\
  forall u conns, (u, conns) ∈ d -> u <> "" /\ conns <> [].

(** The connection is in some user's list. *)
Definition registered (websocket : nat) (d : list (string * list nat)) : Prop :=
  exists u conns, (u, conns) ∈ d /\ websocket ∈ conns.

(** The number of registered connections, over all users. *)
Definition connection_count (d : list (string * list nat)) : nat :=
  sum_list_with (fun entry => length entry.2) d.

(** The state of the simulation page after [n] firings of the timer. *)
Definition ticks (n : nat) (st : Frontend.SimulationState)
  : Frontend.SimulationState :=
  Nat.iter n Frontend.tick st.

(** * Properties *)

(** ** Comparisons and truthiness *)

Lemma Qgtb_true x y : Qgtb x y = true <-> (y < x)%Q.
Proof.
  unfold Qgtb. rewrite negb_true_iff, <- not_true_iff_false, Qle_bool_iff.
  split; [apply Qnot_le_lt | apply Qlt_not_le].
Qed.

Lemma Qgtb_false x y : Qgtb x y = false <-> (x <= y)%Q.
Proof.
  unfold Qgtb. rewrite negb_false_iff. apply Qle_bool_iff.
Qed.

Lemma truthy_Some s : truthy s = true <-> exists b, s = Some b /\ b <> "".
Proof.
  destruct s as [b|]; simpl.
  - rewrite negb_true_iff, bool_decide_eq_false. split.
    + intros H. exists b. done.
    + intros (b' & [= <-] & H). done.
  - split; [done | intros (b & H & _); done].
Qed.

Lemma truthy_nonempty b : b <> "" -> truthy (Some b) = true.
Proof. intros H. apply truthy_Some. eauto. Qed.

(** ** The hook: pushed events *)

Section Hook.
Import Frontend.

Lemma onEvents_snoc evs ev st :
  onEvents (evs ++ [ev]) st = onEvent (onEvents evs st) ev.
Proof. unfold onEvents. by rewrite foldl_app. Qed.

Lemma lastPushed_snoc evs ev :
  lastPushed (evs ++ [ev]) =
  match ev with newTransaction t => Some t | _ => lastPushed evs end.
Proof. unfold lastPushed. by rewrite foldl_app. Qed.

Lemma handleNewTransaction_length t st :
  length (transactions (handleNewTransaction t st)) <= 100.
Proof.
  unfold handleNewTransaction, setTransactions. simpl.
  rewrite length_take. lia.
Qed.

(** What a sequence of pushed events does to the transaction list:
    untouched while no transaction was pushed, otherwise headed by the
    latest one and within the bound. *)
Lemma onEvents_transactions evs st :
  match lastPushed evs with
  | Some t =>
      head (transactions (onEvents evs st)) = Some t /\
      length (transactions (onEvents evs st)) <= 100
  | None => transactions (onEvents evs st) = transactions st
  end.
Proof.
  induction evs as [|ev evs IH] using rev_ind; [done|].
  rewrite onEvents_snoc, lastPushed_snoc.
  destruct ev as [t| | | | |]; try exact IH.
  split; [done | apply (handleNewTransaction_length t)].
Qed.

(** C10. Every pushed [newTransaction] puts the new transaction in
    front of the first 99 entries of the previous list. Hence, after
    any sequence of pushed events handled from any hook state, as soon
    as one transaction was pushed the list holds at most 100 entries and
    its head is the most recently received transaction; handled from the
    hook's initial (empty) state the list never exceeds 100 entries. *)
Theorem handleNewTransaction_bounded :
  (forall t st,
     transactions (handleNewTransaction t st) = t :: take 99 (transactions st)) /\
  (forall evs st,
     match lastPushed evs with
     | Some t =>
         head (transactions (onEvents evs st)) = Some t /\
         length (transactions (onEvents evs st)) <= 100
     | None => transactions (onEvents evs st) = transactions st
     end) /\
  (forall evs, length (transactions (onEvents evs initialHook)) <= 100).
Proof.
  split; [done|]. split; [apply onEvents_transactions|].
  intros evs. pose proof (onEvents_transactions evs initialHook) as H.
  destruct (lastPushed evs); [tauto|]. rewrite H. simpl. lia.
Qed.

End Hook.

(** ** The hook: pushed alerts *)

Section PushedAlerts.
Import Frontend.

(** C6 (as stated, refuted). Handling the same pushed alert twice does
    not leave the alert list as it is after handling it once: the hook
    holds the alert twice. *)
Lemma handleFraudAlert_twice_differs :
  alerts (handleFraudAlert Examples.alert1
            (handleFraudAlert Examples.alert1 initialHook))
  <> alerts (handleFraudAlert Examples.alert1 initialHook).
Proof. intros H. apply (f_equal length) in H. discriminate H. Qed.

(** The alert list after a sequence of pushed events: every pushed
    alert is there, latest first, in front of the list held before. *)
Lemma onEvents_alerts evs st :
  alerts (onEvents evs st) = (reverse (pushedAlerts evs) ++ alerts st)%list.
Proof.
  induction evs as [|ev evs IH] using rev_ind; [done|].
  unfold pushedAlerts in *.
  rewrite onEvents_snoc, omap_app, reverse_app.
  destruct ev; simpl; rewrite ?IH; done.
Qed.

(** C6 (amended). A pushed alert is put in front of the alert list
    whatever the list already holds: no version is compared and
    nothing is discarded. After any sequence of pushed events the list
    holds every pushed alert, latest first, in front of what it held
    before, and handling the same alert twice leaves two copies of
    it. *)
Theorem handleFraudAlert_prepends :
  (forall alert st,
     alerts (handleFraudAlert alert st) = alert :: alerts st /\
     transactions (handleFraudAlert alert st) = transactions st) /\
  (forall evs st,
     alerts (onEvents evs st) = (reverse (pushedAlerts evs) ++ alerts st)%list /\
     length (alerts (onEvents evs st))
     = length (pushedAlerts evs) + length (alerts st)) /\
  (forall alert st,
     alerts (onEvents [fraudAlert alert; fraudAlert alert] st)
     = alert :: alert :: alerts st).
Proof.
  split; [done|]. split; [|done].
  intros evs st. rewrite onEvents_alerts. split; [done|].
  by rewrite length_app, length_reverse.
Qed.

End PushedAlerts.

(** ** The hook: status edits *)

Section UpdateAlert.
Import Frontend.

(** C8 (as stated, refuted). The REST call of [updateAlert] fails, and
    yet the call resolves, the hook's [error] stays empty and the
    attempted status is written into the viewer's alert list. *)
Lemma updateAlert_failure_applies_edit :
  let r := updateAlert "alert_1" "resolved" None None Examples.hook1 in
  FraudAlert.status <$> alerts Examples.hook1 = ["open"] /\
  r.1 = Resolved /\
  error r.2 = None /\
  FraudAlert.status <$> alerts r.2 = ["resolved"].
Proof. vm_compute. done. Qed.

(** C8 (amended). When the REST call of [updateAlert] fails, the call
    still resolves and the [error] cell is left as it was; every local
    alert with the given id receives the attempted status and assignee,
    and every other alert is kept. When the call succeeds, the alerts
    with that id are replaced by the alert the server returned. *)
Theorem updateAlert_outcomes alertId status assignedTo st :
  let failed := updateAlert alertId status assignedTo None st in
  failed.1 = Resolved /\
  error failed.2 = error st /\
  transactions failed.2 = transactions st /\
  (forall i,
     alerts failed.2 !! i =
     (fun alert => if decide (FraudAlert.id alert = alertId)
                   then FraudAlert.with_status alert status assignedTo
                   else alert) <$> (alerts st !! i)) /\
  (forall updatedAlert i,
     let ok := updateAlert alertId status assignedTo (Some updatedAlert) st in
     ok.1 = Resolved /\
     alerts ok.2 !! i =
     (fun alert => if decide (FraudAlert.id alert = alertId)
                   then updatedAlert else alert) <$> (alerts st !! i)).
Proof.
  simpl. repeat split; try done.
  - intros i. apply list_lookup_fmap.
  - apply list_lookup_fmap.
Qed.

End UpdateAlert.

(** ** Visibility of alerts *)

Section Visibility.
Import Frontend.

Lemma filter_all {A} (P : A -> Prop) `{!forall x, Decision (P x)} (l : list A) :
  (forall x, P x) -> filter P l = l.
Proof.
  intros HP. induction l as [|x l IH]; [done|].
  rewrite filter_cons_True by apply HP. by rewrite IH.
Qed.

Lemma filterAlerts_CanSee viewer mockAlerts :
  filterAlerts (viewerBankId viewer) mockAlerts =
  filter (fun alert => CanSee alert viewer = true) mockAlerts.
Proof.
  unfold filterAlerts, CanSee.
  destruct (truthy (viewerBankId viewer)).
  - apply list_filter_iff. intros alert.
    by rewrite bool_decide_eq_true.
  - symmetry. by apply filter_all.
Qed.

(** C1 (as stated, refuted). Whatever "attributable to the client's own
    account" is taken to mean, a client viewer is not denied the alerts
    of their bank that are not attributable to them: the client of the
    mock users sees an alert of bank [bnp]. *)
Lemma CanSee_client_sees_whole_bank :
  ~ (forall (attributable : FraudAlert.t -> User.t -> bool) alert viewer,
       User.role viewer = client ->
       User.bankId viewer = Some (FraudAlert.bankId alert) ->
       attributable alert viewer = false ->
       CanSee alert viewer = false).
Proof.
  intros H.
  specialize (H (fun _ _ => false) Examples.alert1 Examples.marie
                eq_refl eq_refl eq_refl).
  vm_compute in H. discriminate H.
Qed.

(** C1 (amended). For a viewer who is not an admin and has a bank id,
    client and analyst alike, [CanSee] holds exactly for the alerts of
    that bank, so an analyst and a client of the alert's bank both see
    it; an admin sees every alert; and the alerts [loadInitialData]
    keeps from the mock collection are those [CanSee] accepts. *)
Theorem CanSee_by_bank (viewer : User.t) (b : string) :
  User.role viewer <> admin ->
  User.bankId viewer = Some b ->
  b <> "" ->
  (forall alert, CanSee alert viewer = bool_decide (FraudAlert.bankId alert = b)) /\
  (forall mockTransactions mockAlerts mockRiskMetrics st,
     alerts (loadInitialData mockTransactions mockAlerts mockRiskMetrics
               (Some viewer) None st)
     = filter (fun alert => FraudAlert.bankId alert = b) mockAlerts) /\
  (forall alert (root : User.t), User.role root = admin -> CanSee alert root = true).
Proof.
  intros Hrole Hbank Hb.
  assert (Hv : viewerBankId viewer = Some b).
  { unfold viewerBankId. by rewrite decide_False. }
  split; [|split].
  - intros alert. unfold CanSee. rewrite Hv, (truthy_nonempty b Hb).
    apply bool_decide_ext. naive_solver.
  - intros. simpl. unfold filterAlerts. rewrite Hv, (truthy_nonempty b Hb).
    apply list_filter_iff. naive_solver.
  - intros alert root Hroot. unfold CanSee, viewerBankId.
    by rewrite decide_True.
Qed.

Lemma CanSee_by_bank_witness :
  (forall alert,
     CanSee alert Examples.marie = bool_decide (FraudAlert.bankId alert = "bnp")) /\
  (forall mockTransactions mockAlerts mockRiskMetrics st,
     alerts (loadInitialData mockTransactions mockAlerts mockRiskMetrics
               (Some Examples.marie) None st)
     = filter (fun alert => FraudAlert.bankId alert = "bnp") mockAlerts) /\
  (forall alert (root : User.t), User.role root = admin -> CanSee alert root = true).
Proof.
  apply (CanSee_by_bank Examples.marie "bnp"); [discriminate | reflexivity | discriminate].
Defined.

End Visibility.

(** ** The login fallback *)

Section Login.
Import Frontend.

Lemma interceptError_user code st : user (interceptError code st) = user st.
Proof. unfold interceptError. by case_decide. Qed.

(** When the REST calls fail, [login] is [mockLogin] on a state whose
    [user] cell is the one [login] started from. *)
Lemma login_falls_back email password apiLogin apiMe st :
  apiFails apiLogin apiMe = true ->
  exists st', login email password apiLogin apiMe st = mockLogin email password st'
              /\ user st' = user st.
Proof.
  intros Hfail. destruct apiLogin as [tok|code]; simpl.
  - destruct apiMe as [me|code]; [discriminate Hfail|].
    eexists. split; [reflexivity|]. by rewrite interceptError_user.
  - eexists. split; [reflexivity|]. by rewrite interceptError_user.
Qed.

Lemma mockLogin_resolved email password st :
  (mockLogin email password st).1 = Resolved <->
  (exists u, u ∈ mockUsers /\ User.email u = email) /\ password = "demo123".
Proof.
  unfold mockLogin.
  destruct (find _ mockUsers) as [u|] eqn:Hfind.
  - apply find_some in Hfind as [Hin Heq].
    apply list_elem_of_In in Hin. apply bool_decide_eq_true in Heq.
    case_decide; simpl.
    + split; [|done]. intros _. split; [by exists u | done].
    + split; [done|]. by intros [_ ?].
  - simpl. split; [done|]. intros [(u & Hin & Heq) _].
    apply list_elem_of_In in Hin.
    pose proof (find_none _ _ Hfind u Hin) as Hno. simpl in Hno.
    apply bool_decide_eq_false in Hno. done.
Qed.

Lemma mockLogin_outcome email password st :
  match (mockLogin email password st).1 with
  | Resolved =>
      exists u, find (fun u => bool_decide (User.email u = email)) mockUsers = Some u /\
        user (mockLogin email password st).2 = Some u /\
        localStorage (mockLogin email password st).2 !! "auth_token"
          = Some ("mock_token_" +:+ User.id u) /\
        localStorage (mockLogin email password st).2 !! "mock_user_email"
          = Some email
  | Rejected message =>
      message = "Invalid credentials" /\ (mockLogin email password st).2 = st
  end.
Proof.
  unfold mockLogin.
  destruct (find _ mockUsers) as [u|]; [|done].
  case_decide; [|done]. simpl. exists u.
  split; [done|]. split; [done|].
  split; [|by rewrite lookup_insert_eq].
  rewrite lookup_insert_ne by done. by rewrite lookup_insert_eq.
Qed.

(** C9. Whenever the backend authentication call fails, [login]
    resolves exactly when the email is that of one of the built-in mock
    users and the password is ['demo123']; then the matched mock user
    is the authenticated user and the mock token and the email are in
    [localStorage]; in every other case [login] throws
    ['Invalid credentials'] and the [user] cell is left as it was. *)
Theorem login_fallback email password apiLogin apiMe st :
  apiFails apiLogin apiMe = true ->
  let r := login email password apiLogin apiMe st in
  (r.1 = Resolved <->
   (exists u, u ∈ mockUsers /\ User.email u = email) /\ password = "demo123") /\
  match r.1 with
  | Resolved =>
      exists u, u ∈ mockUsers /\ User.email u = email /\
        find (fun u => bool_decide (User.email u = email)) mockUsers = Some u /\
        user r.2 = Some u /\
        localStorage r.2 !! "auth_token" = Some ("mock_token_" +:+ User.id u) /\
        localStorage r.2 !! "mock_user_email" = Some email
  | Rejected message =>
      message = "Invalid credentials" /\ user r.2 = user st
  end.
Proof.
  intros Hfail.
  destruct (login_falls_back email password _ _ st Hfail) as (st' & -> & Hu).
  simpl. split; [apply mockLogin_resolved|].
  pose proof (mockLogin_outcome email password st') as H.
  destruct (mockLogin email password st').1 as [|message].
  - destruct H as (u & Hfind & H). exists u.
    pose proof Hfind as Hfind'.
    apply find_some in Hfind' as [Hin Heq].
    apply list_elem_of_In in Hin. apply bool_decide_eq_true in Heq. done.
  - destruct H as [-> ->]. done.
Qed.

Lemma login_fallback_witness :
  let r := login "client@bnp.fr" "demo123" (Failed None) (Failed None)
             Examples.loggedOut in
  (r.1 = Resolved <->
   (exists u, u ∈ mockUsers /\ User.email u = "client@bnp.fr") /\
   "demo123" = "demo123") /\
  match r.1 with
  | Resolved =>
      exists u, u ∈ mockUsers /\ User.email u = "client@bnp.fr" /\
        find (fun u => bool_decide (User.email u = "client@bnp.fr")) mockUsers
          = Some u /\
        user r.2 = Some u /\
        localStorage r.2 !! "auth_token" = Some ("mock_token_" +:+ User.id u) /\
        localStorage r.2 !! "mock_user_email" = Some "client@bnp.fr"
  | Rejected message =>
      message = "Invalid credentials" /\ user r.2 = user Examples.loggedOut
  end.
Proof.
  apply (login_fallback "client@bnp.fr" "demo123" (Failed None) (Failed None)
           Examples.loggedOut).
  reflexivity.
Defined.

(** The three demonstration accounts of the login page. *)
Example login_demo_accounts :
  (login "admin@bigdefend.ai" "demo123" (Failed None) (Failed None)
     Examples.loggedOut).1 = Resolved /\
  user (login "client@bnp.fr" "demo123" (Failed None) (Failed None)
          Examples.loggedOut).2 = Some Examples.marie /\
  (login "client@bnp.fr" "demo124" (Failed None) (Failed None)
     Examples.loggedOut).1 = Rejected "Invalid credentials" /\
  (login "nobody@bnp.fr" "demo123" (Failed (Some 401%Z)) (Failed None)
     Examples.loggedOut).1 = Rejected "Invalid credentials".
Proof. vm_compute. done. Qed.

End Login.

(** ** The status endpoint *)

Section UpdateAlertStatus.
Import Backend.

Lemma get_analyst_or_admin_user_ok u :
  User.role u ∈ ["analyst"; "admin"] -> get_analyst_or_admin_user u = inr u.
Proof.
  intros H. unfold get_analyst_or_admin_user. by rewrite bool_decide_eq_true_2.
Qed.

(** An authorised call on a stored alert succeeds and writes the
    updated record back under the same key. *)
Lemma update_alert_status_ok alert_id upd u db a :
  User.role u ∈ ["analyst"; "admin"] ->
  alerts db !! alert_id = Some a ->
  update_alert_status alert_id upd u db =
  (inr (apply_update upd a),
   mkDb (transactions db) (<[alert_id := apply_update upd a]> (alerts db))
        (next_transaction_id db) (next_alert_id db)).
Proof.
  intros Hu Ha. unfold update_alert_status.
  by rewrite (get_analyst_or_admin_user_ok u Hu), Ha.
Qed.

(** A rejected call is a 403 or a 404 and leaves the store as it was. *)
Lemma update_alert_status_rejected alert_id upd u db e db' :
  update_alert_status alert_id upd u db = (inl e, db') ->
  db' = db /\ (status_code e = 403 \/ status_code e = 404)%Z.
Proof.
  unfold update_alert_status, get_analyst_or_admin_user.
  case_bool_decide; [|intros [= <- <-]; auto].
  destruct (alerts db !! alert_id); intros [= <- <-]; auto.
Qed.

Lemma apply_update_status upd a s :
  AlertUpdate.status upd = Some s -> s <> "" ->
  Alert.status (apply_update upd a) = s.
Proof.
  intros Hs Hne. unfold apply_update.
  by rewrite Hs, (truthy_nonempty s Hne).
Qed.

(** C2 (as stated, refuted). [resolved -> open] is not an edge of the
    specified life cycle, and yet the call succeeds and the stored
    alert leaves its terminal state. *)
Lemma update_alert_status_leaves_terminal :
  let db := Examples.db_with "resolved" None in
  let r := update_alert_status 1 (AlertUpdate.mk (Some "open") None)
             Examples.analyst_jean db in
  Specification.allowed_edge "resolved" "open" = false /\
  Alert.status <$> (alerts db !! 1%Z) = Some "resolved" /\
  (exists a', r.1 = inr a' /\ Alert.status a' = "open") /\
  Alert.status <$> (alerts r.2 !! 1%Z) = Some "open".
Proof.
  split; [by vm_compute|]. split; [by vm_compute|].
  split; [eexists; split; reflexivity|]. by vm_compute.
Qed.

(** C2 (amended). The endpoint checks no edge: for every stored alert,
    whatever its current status, and every non-empty target status, the
    call of an analyst or an admin succeeds and stores the target
    status. The only rejections are the 403 of the role check and the
    404 of an unknown id, and a rejected call leaves the store
    unchanged. *)
Theorem update_alert_status_any_edge alert_id upd u db a s :
  User.role u ∈ ["analyst"; "admin"] ->
  alerts db !! alert_id = Some a ->
  AlertUpdate.status upd = Some s ->
  s <> "" ->
  (exists a' db',
     update_alert_status alert_id upd u db = (inr a', db') /\
     Alert.status a' = s /\
     alerts db' !! alert_id = Some a') /\
  (forall alert_id' upd' u' db0 e db',
     update_alert_status alert_id' upd' u' db0 = (inl e, db') ->
     db' = db0 /\ (status_code e = 403 \/ status_code e = 404)%Z).
Proof.
  intros Hu Ha Hs Hne. split.
  - eexists _, _. split; [by apply update_alert_status_ok|].
    split; [by apply apply_update_status|]. simpl. apply lookup_insert_eq.
  - intros *. apply update_alert_status_rejected.
Qed.

Lemma update_alert_status_any_edge_witness :
  (exists a' db',
     update_alert_status 1 (AlertUpdate.mk (Some "open") None)
       Examples.analyst_jean (Examples.db_with "false_positive" None)
     = (inr a', db') /\
     Alert.status a' = "open" /\
     alerts db' !! 1%Z = Some a') /\
  (forall alert_id' upd' u' db0 e db',
     update_alert_status alert_id' upd' u' db0 = (inl e, db') ->
     db' = db0 /\ (status_code e = 403 \/ status_code e = 404)%Z).
Proof.
  apply (update_alert_status_any_edge 1 (AlertUpdate.mk (Some "open") None)
           Examples.analyst_jean (Examples.db_with "false_positive" None)
           (Examples.stored_alert "false_positive" None) "open").
  - vm_compute. set_solver.
  - reflexivity.
  - reflexivity.
  - discriminate.
Defined.

End UpdateAlertStatus.

(** ** Concurrent edits and the assignee *)

Section Edits.
Import Backend.
Local Arguments apply_update : simpl never.

(** C3 (as stated, refuted). Two analysts who both read the alert while
    it was [open] send their edits one after the other: neither call is
    rejected, and the second edit replaces the first. *)
Lemma update_alert_status_both_succeed :
  let db0 := Examples.db_with "open" None in
  let r1 := update_alert_status 1
              (AlertUpdate.mk (Some "investigating") (Some "Jean Dupont"))
              Examples.analyst_jean db0 in
  let r2 := update_alert_status 1 (AlertUpdate.mk (Some "resolved") None)
              Examples.analyst_anne r1.2 in
  (exists a1, r1.1 = inr a1 /\ Alert.status a1 = "investigating") /\
  (exists a2, r2.1 = inr a2 /\ Alert.status a2 = "resolved") /\
  Alert.status <$> (alerts r2.2 !! 1%Z) = Some "resolved".
Proof.
  split; [eexists; split; reflexivity|].
  split; [eexists; split; reflexivity|]. by vm_compute.
Qed.

(** C3 (amended). The request carries only [status] and [assigned_to]
    and no version is compared: every call of an analyst or an admin on
    a stored alert succeeds. Of two calls on the same alert both
    succeed, the second is applied to the result of the first, and the
    status the second carries is the one stored in the end. *)
Theorem update_alert_status_last_write_wins alert_id upd1 upd2 u1 u2 db a :
  User.role u1 ∈ ["analyst"; "admin"] ->
  User.role u2 ∈ ["analyst"; "admin"] ->
  alerts db !! alert_id = Some a ->
  let r1 := update_alert_status alert_id upd1 u1 db in
  let r2 := update_alert_status alert_id upd2 u2 r1.2 in
  r1.1 = inr (apply_update upd1 a) /\
  r2.1 = inr (apply_update upd2 (apply_update upd1 a)) /\
  alerts r2.2 !! alert_id = Some (apply_update upd2 (apply_update upd1 a)) /\
  (forall s2, AlertUpdate.status upd2 = Some s2 -> s2 <> "" ->
     Alert.status <$> (alerts r2.2 !! alert_id) = Some s2).
Proof.
  intros Hu1 Hu2 Ha r1 r2.
  assert (H1 : r1 = (inr (apply_update upd1 a),
                     mkDb (transactions db)
                          (<[alert_id := apply_update upd1 a]> (alerts db))
                          (next_transaction_id db) (next_alert_id db))).
  { by apply update_alert_status_ok. }
  assert (H2 : r2 = (inr (apply_update upd2 (apply_update upd1 a)),
                     mkDb (transactions r1.2)
                          (<[alert_id := apply_update upd2 (apply_update upd1 a)]>
                             (alerts r1.2))
                          (next_transaction_id r1.2) (next_alert_id r1.2))).
  { apply update_alert_status_ok; [done|]. rewrite H1. simpl.
    apply lookup_insert_eq. }
  rewrite H2, H1. simpl.
  split; [done|]. split; [done|]. rewrite lookup_insert_eq.
  split; [done|]. intros s2 Hs Hne.
  cbn [fmap option_fmap option_map]. f_equal.
  by apply apply_update_status.
Qed.

Lemma update_alert_status_last_write_wins_witness :
  let upd1 := AlertUpdate.mk (Some "investigating") (Some "Jean Dupont") in
  let upd2 := AlertUpdate.mk (Some "resolved") None in
  let a := Examples.stored_alert "open" None in
  let r1 := update_alert_status 1 upd1 Examples.analyst_jean
              (Examples.db_with "open" None) in
  let r2 := update_alert_status 1 upd2 Examples.analyst_anne r1.2 in
  r1.1 = inr (apply_update upd1 a) /\
  r2.1 = inr (apply_update upd2 (apply_update upd1 a)) /\
  alerts r2.2 !! 1%Z = Some (apply_update upd2 (apply_update upd1 a)) /\
  (forall s2, AlertUpdate.status upd2 = Some s2 -> s2 <> "" ->
     Alert.status <$> (alerts r2.2 !! 1%Z) = Some s2).
Proof.
  apply (update_alert_status_last_write_wins 1
           (AlertUpdate.mk (Some "investigating") (Some "Jean Dupont"))
           (AlertUpdate.mk (Some "resolved") None)
           Examples.analyst_jean Examples.analyst_anne
           (Examples.db_with "open" None) (Examples.stored_alert "open" None)).
  - vm_compute. set_solver.
  - vm_compute. set_solver.
  - reflexivity.
Defined.




End Edits.

(** ** Ingestion *)

Section Ingestion.
Import Backend.
Variable predict_fraud : TransactionCreate.t -> Q.
Variable format_message : Q -> string.

Lemma add_transaction_eq e utcnow db :
  add_transaction predict_fraud format_message e utcnow db =
  (transaction_row predict_fraud e (next_transaction_id db),
   mkDb (<[next_transaction_id db := transaction_row predict_fraud e (next_transaction_id db)]>
           (transactions db))
        (if Qgtb (predict_fraud e) fraud_threshold
         then <[next_alert_id db :=
                  alert_row predict_fraud format_message e utcnow (next_transaction_id db) (next_alert_id db)]>
                (alerts db)
         else alerts db)
        (next_transaction_id db + 1)
        (if Qgtb (predict_fraud e) fraud_threshold
         then next_alert_id db + 1 else next_alert_id db)).
Proof.
  unfold add_transaction, add_transaction_row, add_alert_row, transaction_row,
    alert_row.
  by destruct (Qgtb (predict_fraud e) fraud_threshold).
Qed.

(** C4 (amended). Every call of [add_transaction] stores a new
    transaction under the next free key and, when the score exceeds the
    threshold, a new alert that points to this new transaction. Called
    twice with the same event it therefore returns two transactions
    with consecutive ids and, for a score above the threshold, stores
    two alerts, one per transaction; nothing is looked up before the
    insertions. *)
Theorem add_transaction_not_idempotent e utcnow1 utcnow2 db :
  let r1 := add_transaction predict_fraud format_message e utcnow1 db in
  let r2 := add_transaction predict_fraud format_message e utcnow2 r1.2 in
  let t := next_transaction_id db in
  let n := next_alert_id db in
  Transaction.id r1.1 = t /\
  Transaction.id r2.1 = (t + 1)%Z /\
  transactions r2.2 !! t = Some r1.1 /\
  transactions r2.2 !! (t + 1)%Z = Some r2.1 /\
  next_transaction_id r2.2 = (t + 2)%Z /\
  if Qgtb (predict_fraud e) fraud_threshold
  then alerts r2.2 !! n = Some (alert_row predict_fraud format_message e utcnow1 t n) /\
       alerts r2.2 !! (n + 1)%Z = Some (alert_row predict_fraud format_message e utcnow2 (t + 1) (n + 1)) /\
       next_alert_id r2.2 = (n + 2)%Z
  else alerts r2.2 = alerts db /\ next_alert_id r2.2 = n.
Proof.
  intros r1 r2 t n. subst r1 r2. rewrite !add_transaction_eq. simpl.
  fold t n. split; [done|]. split; [done|].
  split; [rewrite lookup_insert_ne by lia; apply lookup_insert_eq|].
  split; [apply lookup_insert_eq|]. split; [lia|].
  destruct (Qgtb (predict_fraud e) fraud_threshold).
  - split; [rewrite lookup_insert_ne by lia; apply lookup_insert_eq|].
    split; [apply lookup_insert_eq | lia].
  - done.
Qed.

(** Alerts of the mock generator, one input transaction at a time. *)
Variable describe : Frontend.Transaction.t -> string.
Variable random : nat -> Q.

Lemma severityOf_cases p :
  Frontend.severityOf p =
  if Qgtb p 0.9 then Frontend.critical
  else if Qgtb p 0.8 then Frontend.high else Frontend.medium.
Proof. done. Qed.

(** C5 (amended). The backend creates an alert exactly when the score
    is strictly greater than 0.8 and otherwise only stores the
    transaction; it stores no severity. The dashboard's mock generator
    yields an alert exactly for the transactions whose probability is
    strictly greater than 0.7, with severity [critical] above 0.9,
    [high] above 0.8 and [medium] otherwise: every comparison is
    strict, so a score equal to a bound falls in the band below it,
    and [low] is never assigned. *)
Theorem alert_creation_thresholds :
  (forall e utcnow db,
     let r := add_transaction predict_fraud format_message e utcnow db in
     Transaction.is_fraud r.1 = Qgtb (predict_fraud e) 0.8 /\
     (Qgtb (predict_fraud e) 0.8 = true <-> (0.8 < predict_fraud e)%Q) /\
     alerts r.2 =
       if Qgtb (predict_fraud e) 0.8
       then <[next_alert_id db :=
                alert_row predict_fraud format_message e utcnow (next_transaction_id db) (next_alert_id db)]>
              (alerts db)
       else alerts db) /\
  (forall txs,
     Frontend.FraudAlert.transactionId <$>
       Frontend.generateMockAlerts describe random txs
     = Frontend.Transaction.id <$>
         filter (fun tx => Qgtb (Frontend.Transaction.fraudProbability tx) 0.7 = true)
                txs) /\
  (forall tx,
     Frontend.generateMockAlerts describe random [tx] =
     if Qgtb (Frontend.Transaction.fraudProbability tx) 0.7
     then [Frontend.mockAlertOf describe random 0 tx] else []) /\
  (forall i tx,
     Frontend.FraudAlert.severity (Frontend.mockAlertOf describe random i tx)
     = Frontend.severityOf (Frontend.Transaction.fraudProbability tx)) /\
  (forall p,
     (Frontend.severityOf p = Frontend.critical <-> (0.9 < p)%Q) /\
     (Frontend.severityOf p = Frontend.high <-> (0.8 < p)%Q /\ (p <= 0.9)%Q) /\
     (Frontend.severityOf p = Frontend.medium <-> (p <= 0.8)%Q) /\
     Frontend.severityOf p <> Frontend.low).
Proof.
  split; [|split; [|split; [|split]]].
  - intros e utcnow db r. subst r. rewrite add_transaction_eq. simpl.
    split; [done|]. split; [apply Qgtb_true | done].
  - intros txs. unfold Frontend.generateMockAlerts.
    generalize (filter
      (fun tx => Qgtb (Frontend.Transaction.fraudProbability tx) 0.7 = true) txs).
    intros l. rewrite fmap_imap, <- imap_const. by apply imap_ext.
  - intros tx. unfold Frontend.generateMockAlerts.
    destruct (Qgtb (Frontend.Transaction.fraudProbability tx) 0.7) eqn:Hp.
    + by rewrite filter_cons_True.
    + rewrite filter_cons_False; [done|]. by rewrite Hp.
  - done.
  - intros p. rewrite severityOf_cases.
    destruct (Qgtb p 0.9) eqn:H9;
      [apply Qgtb_true in H9 | apply Qgtb_false in H9];
      (destruct (Qgtb p 0.8) eqn:H8;
       [apply Qgtb_true in H8 | apply Qgtb_false in H8]).
    all: repeat match goal with
                | |- _ /\ _ => split
                | |- _ <-> _ => split; intros ?
                | H : (_ < _)%Q /\ _ |- _ => destruct H
                end.
    all: first [congruence | lra | exfalso; lra].
Qed.

End Ingestion.

(** ** Ingestion on concrete events *)

Section IngestionExamples.
Import Backend.

(** C4 (as stated, refuted). The same event, scored 0.9, is sent twice:
    the second call returns a new transaction, changes the store and
    leaves two alerts, one per call. *)
Lemma add_transaction_twice_two_alerts :
  let add := add_transaction (fun _ => 0.9%Q) Examples.format_message
               Examples.payload 0 in
  let r1 := add empty_db in
  let r2 := add r1.2 in
  size (alerts r1.2) = 1 /\
  size (alerts r2.2) = 2 /\
  Transaction.id r2.1 <> Transaction.id r1.1 /\
  r2.2 <> r1.2 /\
  Alert.transaction_id <$> (alerts r2.2 !! 1%Z) = Some 1%Z /\
  Alert.transaction_id <$> (alerts r2.2 !! 2%Z) = Some 2%Z.
Proof.
  split; [by vm_compute|]. split; [by vm_compute|].
  split; [by vm_compute|].
  split; [|split; by vm_compute].
  intros H. apply (f_equal next_alert_id) in H. by vm_compute in H.
Qed.

(** C5 (as stated, refuted). A score of 0.6 lies in the [low] band of
    the specified table, but the backend creates no alert for it and
    the mock generator produces none; a score of exactly 0.8 or 0.7
    reaches its band's bound and still creates nothing; and 0.92 is
    [high] in the table but [critical] in the code. *)
Lemma alert_thresholds_differ :
  let ingest score :=
    alerts (add_transaction (fun _ => score) Examples.format_message
              Examples.payload 0 empty_db).2 in
  let generate score :=
    Frontend.generateMockAlerts Examples.describe Examples.random
      [Examples.tx_scored score] in
  ((0 <= 0.6)%Q /\ (0.6 <= 1)%Q) /\
  Specification.severity_band 0.6 = Some Frontend.low /\
  ingest 0.6%Q = ∅ /\
  generate 0.6%Q = [] /\
  Specification.severity_band 0.8 = Some Frontend.medium /\
  ingest 0.8%Q = ∅ /\
  Specification.severity_band 0.7 = Some Frontend.medium /\
  generate 0.7%Q = [] /\
  Specification.severity_band 0.92 = Some Frontend.high /\
  Frontend.FraudAlert.severity <$> generate 0.92%Q = [Frontend.critical].
Proof.
  split; [split; by vm_compute|]. repeat split; by vm_compute.
Qed.

End IngestionExamples.

(** * Further properties of the dashboard *)

(** ** Blocking and unblocking in the hook *)

Section Blocking.
Import Frontend.

(** X1. When the REST calls fail, [blockTransaction] marks every local
    transaction with the given id as blocked by the logged-in user, and a
    following [unblockTransaction] leaves it [completed] and unblocked
    whatever its status was before the two calls; the other
    transactions, the order of the list and the alerts are untouched,
    and both calls resolve. *)
Theorem blockTransaction_unblockTransaction_local user now transactionId reason st :
  let b := blockTransaction user now transactionId reason None st in
  let u := unblockTransaction transactionId None b.2 in
  b.1 = Resolved /\ u.1 = Resolved /\
  (forall i,
     transactions b.2 !! i =
     (fun tx => if decide (Transaction.id tx = transactionId)
                then markBlocked tx (User.name <$> user) now else tx)
       <$> (transactions st !! i)) /\
  (forall i,
     transactions u.2 !! i =
     (fun tx => if decide (Transaction.id tx = transactionId)
                then markUnblocked tx else tx) <$> (transactions st !! i)) /\
  Transaction.id <$> transactions u.2 = Transaction.id <$> transactions st /\
  alerts u.2 = alerts st /\ error u.2 = error st.
Proof.
  simpl. split; [done|]. split; [done|].
  split; [intros i; apply list_lookup_fmap|].
  split.
  - intros i. rewrite !list_lookup_fmap.
    destruct (transactions st !! i) as [tx|]; [|done]. simpl. f_equal.
    destruct (decide (Transaction.id tx = transactionId)) as [Heq|Hne]; simpl.
    + by rewrite decide_True.
    + by rewrite decide_False.
  - split; [|done]. rewrite <- !list_fmap_compose.
    apply list_fmap_ext. intros i tx _. simpl.
    destruct (decide (Transaction.id tx = transactionId)); simpl;
      case_decide; done.
Qed.

(** X2. [loadInitialData] does nothing without a logged-in user; with
    one, it always ends with [loading] off and [error] cleared, and it
    keeps what the server sent as it is. *)
Theorem loadInitialData_settles mockTransactions mockAlerts mockRiskMetrics api st :
  loadInitialData mockTransactions mockAlerts mockRiskMetrics None api st = st /\
  (forall user,
     let st' := loadInitialData mockTransactions mockAlerts mockRiskMetrics
                  (Some user) api st in
     loading st' = false /\ error st' = None /\
     isConnected st' = isConnected st /\
     match api with
     | Some (txns, alts, metrics) =>
         transactions st' = txns /\ alerts st' = alts /\
         riskMetrics st' = Some metrics
     | None =>
         transactions st' ⊆ mockTransactions /\ alerts st' ⊆ mockAlerts /\
         riskMetrics st' = Some mockRiskMetrics
     end).
Proof.
  split; [done|]. intros user. simpl.
  destruct api as [[[txns alts] metrics]|]; simpl; [done|].
  repeat split; try done.
  - unfold filterTransactions. destruct (truthy _); [|done].
    intros tx Htx. by apply list_elem_of_filter in Htx as [_ ?].
  - unfold filterAlerts. destruct (truthy _); [|done].
    intros a Ha. by apply list_elem_of_filter in Ha as [_ ?].
Qed.

(** X3. In the mock fallback a viewer who is not an admin and has no
    bank id (none, or the empty string) receives the whole mock
    collections: the bank filter is skipped, not closed. *)
Theorem loadInitialData_without_bank mockTransactions mockAlerts mockRiskMetrics
  (viewer : User.t) st :
  User.role viewer <> admin ->
  truthy (User.bankId viewer) = false ->
  let st' := loadInitialData mockTransactions mockAlerts mockRiskMetrics
               (Some viewer) None st in
  transactions st' = mockTransactions /\ alerts st' = mockAlerts /\
  forall alert, CanSee alert viewer = true.
Proof.
  intros Hrole Hbank.
  assert (Hv : truthy (viewerBankId viewer) = false).
  { unfold viewerBankId. by rewrite decide_False. }
  simpl. unfold filterTransactions, filterAlerts, CanSee. by rewrite Hv.
Qed.

Lemma loadInitialData_without_bank_witness :
  let viewer := User.mk "9" "guest@bnp.fr" "Guest" client None None true "" in
  let st' := loadInitialData [Examples.tx1] [Examples.alert1] "metrics"
               (Some viewer) None initialHook in
  transactions st' = [Examples.tx1] /\ alerts st' = [Examples.alert1] /\
  forall alert, CanSee alert viewer = true.
Proof.
  apply (loadInitialData_without_bank [Examples.tx1] [Examples.alert1] "metrics"
           (User.mk "9" "guest@bnp.fr" "Guest" client None None true "")
           initialHook).
  - discriminate.
  - reflexivity.
Defined.

End Blocking.

(** ** The mock generator *)

Section MockData.
Import Frontend.
Variable describe : Transaction.t -> string.
Variable random : nat -> Q.

Lemma generateMockAlerts_lookup txs i a :
  generateMockAlerts describe random txs !! i = Some a <->
  exists tx,
    filter (fun tx => Qgtb (Transaction.fraudProbability tx) 0.7 = true) txs !! i
      = Some tx /\
    a = mockAlertOf describe random i tx.
Proof.
  unfold generateMockAlerts. rewrite list_lookup_imap.
  destruct (filter _ txs !! i) as [tx|]; simpl.
  - split; [intros [= <-]; by exists tx | by intros (tx' & [= <-] & ->)].
  - split; [done | by intros (tx' & ? & _)].
Qed.

(** X4. The alerts of [generateMockAlerts] are numbered [alert_1],
    [alert_2], ... in list order, so their ids are pairwise distinct;
    hence a local status edit addressed to the id of the [i]-th
    generated alert changes that alert and no other. *)
Theorem generateMockAlerts_ids txs :
  (forall i a,
     generateMockAlerts describe random txs !! i = Some a ->
     FraudAlert.id a = "alert_" +:+ pretty (i + 1)%nat) /\
  NoDup (FraudAlert.id <$> generateMockAlerts describe random txs) /\
  (forall i j a status assignedTo st,
     generateMockAlerts describe random txs !! i = Some a ->
     i <> j ->
     let st' := (updateAlert (FraudAlert.id a) status assignedTo None
                   (setAlerts (fun _ => generateMockAlerts describe random txs) st)).2 in
     alerts st' !! i = Some (FraudAlert.with_status a status assignedTo) /\
     alerts st' !! j = generateMockAlerts describe random txs !! j).
Proof.
  assert (Hid : forall i a,
            generateMockAlerts describe random txs !! i = Some a ->
            FraudAlert.id a = "alert_" +:+ pretty (i + 1)%nat).
  { intros i a Ha. apply generateMockAlerts_lookup in Ha as (tx & _ & ->). done. }
  assert (Hinj : forall i j a b,
            generateMockAlerts describe random txs !! i = Some a ->
            generateMockAlerts describe random txs !! j = Some b ->
            FraudAlert.id a = FraudAlert.id b -> i = j).
  { intros i j a b Ha Hb Hab.
    rewrite (Hid i a Ha), (Hid j b Hb) in Hab. simpl in Hab.
    injection Hab as Hab.
    change (pretty (i + 1)%nat = pretty (j + 1)%nat) in Hab.
    apply (inj (pretty : nat -> string)) in Hab. lia. }
  split; [exact Hid|]. split.
  - apply NoDup_alt. intros i j s Hi Hj.
    rewrite list_lookup_fmap in Hi, Hj.
    destruct (generateMockAlerts describe random txs !! i) as [a|] eqn:Ha;
      [|done].
    destruct (generateMockAlerts describe random txs !! j) as [b|] eqn:Hb;
      [|done].
    simpl in Hi, Hj. apply (Hinj i j a b Ha Hb). congruence.
  - intros i j a status assignedTo st Ha Hij. simpl.
    rewrite !list_lookup_fmap, Ha. simpl. split.
    + by rewrite decide_True.
    + destruct (generateMockAlerts describe random txs !! j) as [b|] eqn:Hb;
        [|done].
      simpl. rewrite decide_False; [done|].
      intros Heq. apply Hij. symmetry. by apply (Hinj j i b a Hb Ha).
Qed.


Lemma recommendedAction_severity p :
  (recommendedActionOf p = "block" <-> severityOf p = critical) /\
  (recommendedActionOf p = "investigate" <-> severityOf p = high) /\
  (recommendedActionOf p = "review" <-> severityOf p = medium).
Proof.
  unfold recommendedActionOf, severityOf.
  destruct (Qgtb p 0.9), (Qgtb p 0.8); repeat split; intros H; done.
Qed.

Lemma statusOf_investigating p :
  statusOf p = "investigating" -> severityOf p = critical.
Proof.
  unfold statusOf, severityOf.
  destruct (Qgtb p 0.95) eqn:H95; [|done]. intros _.
  apply Qgtb_true in H95.
  destruct (Qgtb p 0.9) eqn:H9; [done|].
  apply Qgtb_false in H9. exfalso. lra.
Qed.

(** X5. Every alert of [generateMockAlerts] comes from one of the
    given transactions, whose id, bank, timestamp and probability it
    carries; that probability is above 0.7; the alert is unassigned,
    [open] or [investigating], and [investigating] only when it is
    [critical]; and the recommended action follows the severity:
    [block] for [critical], [investigate] for [high], [review] for
    [medium]. *)
Theorem generateMockAlerts_sound txs a :
  a ∈ generateMockAlerts describe random txs ->
  (exists tx, tx ∈ txs /\
     FraudAlert.transactionId a = Transaction.id tx /\
     FraudAlert.bankId a = Transaction.bankId tx /\
     FraudAlert.timestamp a = Transaction.timestamp tx /\
     FraudAlert.fraudProbability a = Transaction.fraudProbability tx) /\
  (0.7 < FraudAlert.fraudProbability a)%Q /\
  FraudAlert.assignedTo a = None /\
  (FraudAlert.status a = "open" \/
   FraudAlert.status a = "investigating" /\ FraudAlert.severity a = critical) /\
  (FraudAlert.recommendedAction a = "block" <-> FraudAlert.severity a = critical) /\
  (FraudAlert.recommendedAction a = "investigate" <-> FraudAlert.severity a = high) /\
  (FraudAlert.recommendedAction a = "review" <-> FraudAlert.severity a = medium).
Proof.
  intros Ha. apply list_elem_of_lookup in Ha as [i Ha].
  apply generateMockAlerts_lookup in Ha as (tx & Htx & ->).
  apply list_elem_of_lookup_2, list_elem_of_filter in Htx as [Hp Htx].
  apply Qgtb_true in Hp. simpl.
  split; [by exists tx|]. split; [done|]. split; [done|].
  split; [|apply recommendedAction_severity].
  pose proof (statusOf_investigating (Transaction.fraudProbability tx)) as Hs.
  unfold statusOf in *. destruct (Qgtb _ 0.95); [right|left]; auto.
Qed.


(** X6. When [Math.random] yields numbers in [0, 1), the confidence of
    every generated alert lies in [0.7, 1). *)
Theorem generateMockAlerts_aiConfidence txs a :
  (forall n, (0 <= random n)%Q /\ (random n < 1)%Q) ->
  a ∈ generateMockAlerts describe random txs ->
  (0.7 <= FraudAlert.aiConfidence a)%Q /\ (FraudAlert.aiConfidence a < 1)%Q.
Proof.
  intros Hr Ha. apply list_elem_of_lookup in Ha as [i Ha].
  apply generateMockAlerts_lookup in Ha as (tx & _ & ->). simpl.
  destruct (Hr i) as [H0 H1]. split; lra.
Qed.

(** X7. [generateMockTransactions] never gives a transaction the
    status [blocked]: the status is [flagged] exactly above 0.8 and
    [completed] otherwise, while [isBlocked] is set exactly above 0.9,
    so every transaction generated as blocked carries the status
    [flagged]. *)
Theorem mockTransactionStatus_never_blocked p :
  mockTransactionStatus p <> "blocked" /\
  (mockTransactionStatus p = "flagged" <-> (0.8 < p)%Q) /\
  (mockTransactionStatus p = "completed" <-> (p <= 0.8)%Q) /\
  (mockIsBlocked p = true <-> (0.9 < p)%Q) /\
  (mockIsBlocked p = true -> mockTransactionStatus p = "flagged").
Proof.
  unfold mockTransactionStatus, mockIsBlocked.
  destruct (Qgtb p 0.8) eqn:H8;
    [apply Qgtb_true in H8 | apply Qgtb_false in H8];
    (destruct (Qgtb p 0.9) eqn:H9;
     [apply Qgtb_true in H9 | apply Qgtb_false in H9]).
  all: repeat match goal with
              | |- _ /\ _ => split
              | |- _ <-> _ => split; intros ?
              | |- _ -> _ => intros ?
              end.
  all: first [congruence | lra | exfalso; lra].
Qed.

End MockData.

Section MockDataExamples.
Import Frontend.

Lemma generateMockAlerts_ids_witness :
  let txs := [Examples.tx_scored 0.92; Examples.tx_scored 0.75] in
  let a := mockAlertOf Examples.describe Examples.random 0 (Examples.tx_scored 0.92) in
  let st' := (updateAlert (FraudAlert.id a) "resolved" None None
                (setAlerts (fun _ => generateMockAlerts Examples.describe Examples.random txs)
                           initialHook)).2 in
  alerts st' !! 0%nat = Some (FraudAlert.with_status a "resolved" None) /\
  alerts st' !! 1%nat = generateMockAlerts Examples.describe Examples.random txs !! 1%nat.
Proof.
  apply (proj2 (proj2 (generateMockAlerts_ids Examples.describe Examples.random
                         [Examples.tx_scored 0.92; Examples.tx_scored 0.75]))
           0%nat 1%nat).
  - reflexivity.
  - discriminate.
Defined.

Lemma generateMockAlerts_sound_witness :
  let a := mockAlertOf Examples.describe Examples.random 0 (Examples.tx_scored 0.92) in
  (exists tx, tx ∈ [Examples.tx_scored 0.92] /\
     FraudAlert.transactionId a = Transaction.id tx /\
     FraudAlert.bankId a = Transaction.bankId tx /\
     FraudAlert.timestamp a = Transaction.timestamp tx /\
     FraudAlert.fraudProbability a = Transaction.fraudProbability tx) /\
  (0.7 < FraudAlert.fraudProbability a)%Q /\
  FraudAlert.assignedTo a = None /\
  (FraudAlert.status a = "open" \/
   FraudAlert.status a = "investigating" /\ FraudAlert.severity a = critical) /\
  (FraudAlert.recommendedAction a = "block" <-> FraudAlert.severity a = critical) /\
  (FraudAlert.recommendedAction a = "investigate" <-> FraudAlert.severity a = high) /\
  (FraudAlert.recommendedAction a = "review" <-> FraudAlert.severity a = medium).
Proof.
  apply (generateMockAlerts_sound Examples.describe Examples.random [Examples.tx_scored 0.92]).
  vm_compute. left.
Defined.

Lemma generateMockAlerts_aiConfidence_witness :
  let a := mockAlertOf Examples.describe Examples.random 0 (Examples.tx_scored 0.92) in
  (0.7 <= FraudAlert.aiConfidence a)%Q /\ (FraudAlert.aiConfidence a < 1)%Q.
Proof.
  apply (generateMockAlerts_aiConfidence Examples.describe Examples.random
           [Examples.tx_scored 0.92]).
  - intros n. split; by vm_compute.
  - vm_compute. left.
Defined.

End MockDataExamples.

(** ** The figures of the dashboard *)

Section DashboardFigures.
Import Frontend.

Lemma filter_length_le {A} (P : A -> Prop) `{!forall x, Decision (P x)} (l : list A) :
  length (filter P l) <= length l.
Proof.
  induction l as [|x l IH]; [done|].
  rewrite filter_cons. destruct (decide (P x)); simpl; lia.
Qed.

(** X8. The "frauds detected" card counts exactly the transactions for
    which the mock generator produces an alert. The fraud and blocked
    counts never exceed the total, the active alerts never exceed the
    alerts, and the fraud rate is 0 for an empty list (no division) and
    lies between 0 and 1 otherwise. *)
Theorem dashboard_counts describe random (transactions : list Transaction.t) :
  fraudTransactions transactions
    = length (generateMockAlerts describe random transactions) /\
  fraudTransactions transactions <= totalTransactions transactions /\
  blockedTransactions transactions <= totalTransactions transactions /\
  (forall alerts : list FraudAlert.t, activeAlerts alerts <= length alerts) /\
  fraudRate [] = 0%Q /\
  (0 <= fraudRate transactions)%Q /\ (fraudRate transactions <= 1)%Q.
Proof.
  assert (Hle : fraudTransactions transactions <= totalTransactions transactions)
    by apply filter_length_le.
  split; [unfold generateMockAlerts; by rewrite length_imap|].
  split; [done|]. split; [apply filter_length_le|].
  split; [intros alerts; apply filter_length_le|]. split; [done|].
  unfold fraudRate. case_decide as Hpos; [|split; [apply Qle_refl | by vm_compute]].
  assert (Hq : (0 < inject_Z (Z.of_nat (totalTransactions transactions)))%Q).
  { rewrite <- (Zlt_Qlt 0). lia. }
  split.
  - apply Qle_shift_div_l; [done|]. rewrite Qmult_0_l.
    rewrite <- (Zle_Qle 0). lia.
  - apply Qle_shift_div_r; [done|]. rewrite Qmult_1_l.
    rewrite <- Zle_Qle. lia.
Qed.

Lemma riskScore_sum_bounds (l : list Transaction.t) (acc : Q) :
  (forall tx, tx ∈ l ->
     (0 <= Transaction.riskScore tx)%Q /\ (Transaction.riskScore tx <= 1)%Q) ->
  (acc <= foldl (fun sum tx => sum + Transaction.riskScore tx) acc l)%Q /\
  (foldl (fun sum tx => sum + Transaction.riskScore tx) acc l
   <= acc + inject_Z (Z.of_nat (length l)))%Q.
Proof.
  revert acc. induction l as [|tx l IH]; intros acc Hall.
  - split; [apply Qle_refl|]. change (acc <= acc + 0)%Q. lra.
  - cbn [foldl length].
    destruct (Hall tx) as [H0 H1]; [left|].
    destruct (IH (acc + Transaction.riskScore tx)%Q) as [IH0 IH1].
    { intros tx' Htx'. apply Hall. by right. }
    rewrite Nat2Z.inj_succ, <- Z.add_1_r, inject_Z_plus.
    change (inject_Z 1) with 1%Q. split; lra.
Qed.

(** X9. When every risk score lies between 0 and 1, so does the
    average the analyst's card shows, also for an empty list. *)
Theorem avgRiskScore_bounds (transactions : list Transaction.t) :
  (forall tx, tx ∈ transactions ->
     (0 <= Transaction.riskScore tx)%Q /\ (Transaction.riskScore tx <= 1)%Q) ->
  (0 <= avgRiskScore transactions)%Q /\ (avgRiskScore transactions <= 1)%Q.
Proof.
  intros Hall. unfold avgRiskScore.
  case_decide as Hpos; [|split; [apply Qle_refl | by vm_compute]].
  destruct (riskScore_sum_bounds transactions 0 Hall) as [H0 H1].
  assert (Hq : (0 < inject_Z (Z.of_nat (length transactions)))%Q).
  { rewrite <- (Zlt_Qlt 0). lia. }
  split.
  - apply Qle_shift_div_l; [done|]. lra.
  - apply Qle_shift_div_r; [done|]. lra.
Qed.

Lemma avgRiskScore_bounds_witness :
  (0 <= avgRiskScore [Examples.tx1])%Q /\ (avgRiskScore [Examples.tx1] <= 1)%Q.
Proof.
  apply (avgRiskScore_bounds [Examples.tx1]).
  intros tx Htx. apply list_elem_of_singleton in Htx as ->.
  split; by vm_compute.
Defined.

End DashboardFigures.

(** ** The filters of the transaction table *)

Section TransactionFilters.
Import Frontend.
Variable matchesSearch : string -> Transaction.t -> bool.

Lemma matchesRisk_cases tx :
  matchesRisk "all" tx = true /\
  (matchesRisk "high" tx = true /\ matchesRisk "medium" tx = false /\
     matchesRisk "low" tx = false \/
   matchesRisk "high" tx = false /\ matchesRisk "medium" tx = true /\
     matchesRisk "low" tx = false \/
   matchesRisk "high" tx = false /\ matchesRisk "medium" tx = false /\
     matchesRisk "low" tx = true).
Proof.
  split; [done|]. unfold matchesRisk, Qgtb. simpl.
  destruct (Qle_bool (Transaction.fraudProbability tx) 0.7) eqn:H7;
    destruct (Qle_bool (Transaction.fraudProbability tx) 0.4) eqn:H4;
    simpl; auto.
  apply Qle_bool_iff in H4.
  apply not_true_iff_false in H7. exfalso. apply H7.
  apply Qle_bool_iff. lra.
Qed.

(** X10. For every search term and status filter, the risk filters
    [high], [medium] and [low] split the rows shown under [all]: each
    such row is shown under exactly one of them, so the three lengths
    add up; a risk filter with any other name shows nothing. *)
Theorem filteredTransactions_risk_partition searchTerm statusFilter txs :
  let shown riskFilter :=
    filteredTransactions matchesSearch searchTerm statusFilter riskFilter txs in
  length (shown "all") =
    length (shown "high") + length (shown "medium") + length (shown "low") /\
  (forall tx, tx ∈ shown "all" <->
     tx ∈ shown "high" \/ tx ∈ shown "medium" \/ tx ∈ shown "low") /\
  (forall tx, ~ (tx ∈ shown "high" /\ tx ∈ shown "medium") /\
              ~ (tx ∈ shown "high" /\ tx ∈ shown "low") /\
              ~ (tx ∈ shown "medium" /\ tx ∈ shown "low")) /\
  (forall riskFilter,
     riskFilter ∉ ["all"; "high"; "medium"; "low"] -> shown riskFilter = []).
Proof.
  intros shown. subst shown. unfold filteredTransactions.
  split; [|split; [|split]].
  - induction txs as [|tx l IH]; [done|].
    rewrite !filter_cons.
    destruct (matchesRisk_cases tx) as [Hall [(-> & -> & ->)|[(-> & -> & ->)|(-> & -> & ->)]]];
      rewrite Hall, ?andb_true_r, ?andb_false_r;
      destruct (matchesSearch searchTerm tx && matchesStatus statusFilter tx);
      repeat case_decide; try done; simpl; lia.
  - intros tx. rewrite !list_elem_of_filter.
    destruct (matchesRisk_cases tx) as [Hall [(-> & -> & ->)|[(-> & -> & ->)|(-> & -> & ->)]]];
      rewrite Hall, ?andb_true_r, ?andb_false_r; intuition congruence.
  - intros tx. rewrite !list_elem_of_filter.
    destruct (matchesRisk_cases tx) as [_ [(-> & -> & ->)|[(-> & -> & ->)|(-> & -> & ->)]]];
      rewrite ?andb_true_r, ?andb_false_r; intuition congruence.
  - intros riskFilter Hnot.
    assert (Hno : forall tx, matchesRisk riskFilter tx = false).
    { intros tx. unfold matchesRisk.
      rewrite !bool_decide_eq_false_2; [done|..];
        intros ->; apply Hnot; set_solver. }
    induction txs as [|tx l IH]; [done|].
    rewrite filter_cons_False; [done|]. rewrite Hno, andb_false_r. done.
Qed.

(** X11. [getRiskColor] paints a score red from 0.8 on, orange from 0.6
    on, yellow from 0.4 on and green below: each band includes its
    lower bound. *)
Theorem getRiskColor_bands score :
  (getRiskColor score = "text-red-600 bg-red-50" <-> (0.8 <= score)%Q) /\
  (getRiskColor score = "text-orange-600 bg-orange-50"
     <-> (0.6 <= score)%Q /\ (score < 0.8)%Q) /\
  (getRiskColor score = "text-yellow-600 bg-yellow-50"
     <-> (0.4 <= score)%Q /\ (score < 0.6)%Q) /\
  (getRiskColor score = "text-green-600 bg-green-50" <-> (score < 0.4)%Q).
Proof.
  unfold getRiskColor, Qgeb.
  destruct (Qle_bool 0.8 score) eqn:H8;
    [apply Qle_bool_iff in H8
    | apply not_true_iff_false in H8; rewrite Qle_bool_iff in H8;
      apply Qnot_le_lt in H8];
    (destruct (Qle_bool 0.6 score) eqn:H6;
     [apply Qle_bool_iff in H6
     | apply not_true_iff_false in H6; rewrite Qle_bool_iff in H6;
       apply Qnot_le_lt in H6]);
    (destruct (Qle_bool 0.4 score) eqn:H4;
     [apply Qle_bool_iff in H4
     | apply not_true_iff_false in H4; rewrite Qle_bool_iff in H4;
       apply Qnot_le_lt in H4]).
  all: repeat match goal with
              | |- _ /\ _ => split
              | |- _ <-> _ => split; intros ?
              | H : (_ <= _)%Q /\ _ |- _ => destruct H
              end.
  all: first [congruence | lra | exfalso; lra].
Qed.

End TransactionFilters.

(** ** The simulation timer *)

Section Simulation.
Import Frontend.

Lemma ticks_S n st : ticks (S n) st = tick (ticks n st).
Proof. done. Qed.

Lemma ticks_running n :
  n <= 10 ->
  ticks n (handleStartSimulation (mkSimulation 0 false false))
  = mkSimulation (10 * Z.of_nat n) true true.
Proof.
  induction n as [|n IH]; intros Hn; [done|].
  rewrite ticks_S, IH by lia. unfold tick. simpl.
  destruct (100 <=? 10 * Z.of_nat n)%Z eqn:Hle; [lia|].
  f_equal. lia.
Qed.

Lemma ticks_finished n :
  10 < n ->
  ticks n (handleStartSimulation (mkSimulation 0 false false))
  = mkSimulation 100 false false.
Proof.
  induction n as [|n IH]; intros Hn; [lia|].
  rewrite ticks_S. destruct (decide (n = 10)) as [->|Hne].
  - by rewrite ticks_running.
  - by rewrite IH by lia.
Qed.

(** X12. A simulation started at progress 0 advances by 10 per firing
    of the timer and shows 100 after ten firings, but it is still marked
    as running then: the run flag drops and the timer is cleared only
    at the eleventh firing, after which nothing changes any more. The
    progress never exceeds 100. *)
Theorem simulation_progress n :
  let st := ticks n (handleStartSimulation (mkSimulation 0 false false)) in
  progress st = Z.min (10 * Z.of_nat n) 100 /\
  isRunning st = bool_decide (n <= 10) /\
  intervalActive st = bool_decide (n <= 10).
Proof.
  destruct (decide (n <= 10)) as [Hn|Hn].
  - rewrite ticks_running by done. simpl.
    rewrite bool_decide_eq_true_2 by done. split; [lia|done].
  - rewrite ticks_finished by lia. simpl.
    rewrite bool_decide_eq_false_2 by done. split; [lia|done].
Qed.

(** X13. Stopping a simulation resets the progress and the run flag
    but leaves the timer scheduled: at its next firing the progress
    rises again although the simulation is marked as stopped. *)
Theorem simulation_stop_keeps_timer st :
  intervalActive st = true ->
  let stopped := handleStopSimulation st in
  progress stopped = 0%Z /\ isRunning stopped = false /\
  intervalActive stopped = true /\
  forall n, n <= 10 ->
    progress (ticks n stopped) = (10 * Z.of_nat n)%Z /\
    isRunning (ticks n stopped) = false.
Proof.
  intros Hact. simpl. split; [done|]. split; [done|]. split; [done|].
  intros n Hn.
  assert (H : ticks n (handleStopSimulation st)
              = mkSimulation (10 * Z.of_nat n) false true).
  { induction n as [|n IH]; [unfold handleStopSimulation; by rewrite Hact|].
    rewrite ticks_S, IH by lia. unfold tick. simpl.
    destruct (100 <=? 10 * Z.of_nat n)%Z eqn:Hle; [lia|]. f_equal. lia. }
  by rewrite H.
Qed.

Lemma simulation_stop_keeps_timer_witness :
  let stopped :=
    handleStopSimulation
      (ticks 3 (handleStartSimulation (mkSimulation 0 false false))) in
  progress stopped = 0%Z /\ isRunning stopped = false /\
  intervalActive stopped = true /\
  forall n, n <= 10 ->
    progress (ticks n stopped) = (10 * Z.of_nat n)%Z /\
    isRunning (ticks n stopped) = false.
Proof.
  apply (simulation_stop_keeps_timer
           (ticks 3 (handleStartSimulation (mkSimulation 0 false false)))).
  reflexivity.
Defined.

End Simulation.

(** ** Sessions *)

Section Sessions.
Import Frontend.

(** X14. [logout] clears the user, the token and the stored email and
    nothing else in [localStorage]; afterwards no [Authorization]
    header is sent, a remount of the provider finds no session whatever
    the server would answer, and a second [logout] changes nothing. *)
Theorem logout_clears_session st :
  let st' := logout st in
  user st' = None /\
  getItem "auth_token" st' = None /\
  getItem "mock_user_email" st' = None /\
  (forall k, k <> "auth_token" -> k <> "mock_user_email" ->
     getItem k st' = getItem k st) /\
  authorizationHeader st' = None /\
  (forall apiMe, initAuth apiMe st' = (st', false)) /\
  logout st' = st'.
Proof.
  unfold logout, getItem, authorizationHeader, initAuth, getItem. simpl.
  assert (Htok : delete "mock_user_email" (delete "auth_token" (localStorage st))
                   !! "auth_token" = None).
  { rewrite lookup_delete_ne by done. apply lookup_delete_eq. }
  split; [done|]. split; [done|].
  split; [apply lookup_delete_eq|].
  split; [intros k H1 H2; by rewrite !lookup_delete_ne|].
  rewrite Htok. split; [done|]. split; [done|].
  unfold setUser, removeItem. simpl. f_equal.
  apply map_eq. intros k.
  destruct (decide (k = "mock_user_email")) as [->|H2].
  { by rewrite !lookup_delete_eq. }
  rewrite (lookup_delete_ne _ "mock_user_email" k) by done.
  destruct (decide (k = "auth_token")) as [->|H1].
  { rewrite lookup_delete_eq. done. }
  rewrite (lookup_delete_ne _ "auth_token" k) by done. done.
Qed.




(** X16. When a token is stored, the REST call fails and the stored
    email is not that of a mock user (or is missing), [initAuth] removes
    the token and the email and leaves the user as it was; when no token
    is stored (or an empty one), it changes nothing. In both cases
    [loading] ends off. *)
Theorem initAuth_discards_unknown_session code st :
  (forall u, u ∈ mockUsers ->
     Some (User.email u) <> getItem "mock_user_email" st) ->
  let r := initAuth (Failed code) st in
  r.2 = false /\ user r.1 = user st /\
  if truthy (getItem "auth_token" st)
  then getItem "auth_token" r.1 = None /\ getItem "mock_user_email" r.1 = None
  else r.1 = st.
Proof.
  intros Hno. unfold initAuth.
  destruct (truthy (getItem "auth_token" st)) eqn:Htok; [|done].
  assert (Hm : getItem "mock_user_email" (interceptError code st)
               = getItem "mock_user_email" st).
  { unfold interceptError, getItem. case_decide; [|done].
    simpl. by rewrite lookup_delete_ne. }
  destruct (find _ mockUsers) as [u|] eqn:Hfind.
  { apply find_some in Hfind as [Hin Heq].
    apply list_elem_of_In in Hin. apply bool_decide_eq_true in Heq.
    rewrite Hm in Heq. by destruct (Hno u Hin). }
  simpl. split; [done|]. split; [apply interceptError_user|].
  unfold getItem. simpl. split.
  - rewrite lookup_delete_ne by done. apply lookup_delete_eq.
  - apply lookup_delete_eq.
Qed.

Lemma initAuth_discards_unknown_session_witness :
  let st := mkAuth None {[ "auth_token" := "stale" ]} in
  let r := initAuth (Failed (Some 500%Z)) st in
  r.2 = false /\ user r.1 = user st /\
  if truthy (getItem "auth_token" st)
  then getItem "auth_token" r.1 = None /\ getItem "mock_user_email" r.1 = None
  else r.1 = st.
Proof.
  apply (initAuth_discards_unknown_session (Some 500%Z)
           (mkAuth None {[ "auth_token" := "stale" ]})).
  intros u _. by vm_compute.
Defined.

End Sessions.

(** ** The listener registry of the WebSocket service *)

Section Listeners.
Import Frontend.
Context {D : Type}.
Implicit Types listeners : gmap string (list nat).





End Listeners.


(** ** Routes and navigation *)

Section Routes.
Import Frontend.


(** X20. A sidebar link leads to a page of its own exactly when it is
    not one of [/banks], [/users], [/ai-model], [/settings] and
    [/analytics]: these five links, shown to admins and analysts, have
    no route and fall back to the dashboard redirect. Every link shown
    to a client has a page. *)
Theorem getNavigationItems_routes (viewer : User.t) (to label : string) :
  (to, label) ∈ getNavigationItems (Some viewer) ->
  (AppRoutes false (Some viewer) to = Navigate "/dashboard"
     <-> to ∈ ["/banks"; "/users"; "/ai-model"; "/settings"; "/analytics"]) /\
  (User.role viewer = client ->
     AppRoutes false (Some viewer) to <> Navigate "/dashboard").
Proof.
  destruct viewer as [id email name role bankId bankName isActive createdAt].
  unfold getNavigationItems. simpl.
  destruct role; simpl; intros Hin;
    rewrite ?elem_of_cons, elem_of_nil in Hin;
    repeat (destruct Hin as [Hin|Hin]; [injection Hin as -> ->|]);
    try done.
  all: split; [split; intros H | intros H].
  all: first [ by vm_compute
             | discriminate H
             | by vm_compute in H
             | solve [ repeat first [ apply list_elem_of_here
                                    | apply list_elem_of_further ] ]
             | exfalso;
               repeat (apply elem_of_cons in H as [H|H]; [discriminate H|]);
               by apply elem_of_nil in H ].
Qed.

Lemma getNavigationItems_routes_witness :
  (AppRoutes false (Some Examples.jean) "/analytics" = Navigate "/dashboard"
     <-> "/analytics" ∈ ["/banks"; "/users"; "/ai-model"; "/settings"; "/analytics"]) /\
  (User.role Examples.jean = client ->
     AppRoutes false (Some Examples.jean) "/analytics" <> Navigate "/dashboard").
Proof.
  apply (getNavigationItems_routes Examples.jean "/analytics" "Analyses").
  vm_compute. do 3 apply list_elem_of_further. apply list_elem_of_here.
Defined.

End Routes.

(** * Further properties of the backend *)

(** ** The status endpoint, continued *)

Section StatusEndpoint.
Import Backend.
Local Arguments apply_update : simpl never.

(** X21. The outcome of [update_alert_status] is decided by the role
    first and the alert id second: 403 exactly for a user who is
    neither analyst nor admin (also when the alert does not exist), 404
    exactly for an authorised user and an unknown id, and success
    exactly for an authorised user and a stored alert. *)
Theorem update_alert_status_decision alert_id upd u db :
  let r := update_alert_status alert_id upd u db in
  (r.1 = inl (mkHTTPException 403 "Not enough permissions to update alerts")
     <-> User.role u ∉ ["analyst"; "admin"]) /\
  (r.1 = inl (mkHTTPException 404 "Alert not found")
     <-> User.role u ∈ ["analyst"; "admin"] /\ alerts db !! alert_id = None) /\
  ((exists a, r.1 = inr a)
     <-> User.role u ∈ ["analyst"; "admin"] /\ is_Some (alerts db !! alert_id)).
Proof.
  unfold update_alert_status, get_analyst_or_admin_user.
  case_bool_decide as Hrole; simpl.
  - destruct (alerts db !! alert_id) as [a|] eqn:Ha; simpl.
    + split; [split; [done | by intros ?]|].
      split; [split; [done | by intros [_ ?]]|].
      split; [by intros _ | intros _; by eexists].
    + split; [split; [done | by intros ?]|].
      split; [done|].
      split; [by intros [? ?] | by intros [_ [? ?]]].
  - split; [done|]. split; [split; [done | by intros [? _]]|].
    split; [by intros [? ?] | by intros [? _]].
Qed.

Lemma apply_update_idempotent upd a :
  apply_update upd (apply_update upd a) = apply_update upd a.
Proof.
  unfold apply_update. simpl.
  destruct (AlertUpdate.status upd) as [s|], (AlertUpdate.assigned_to upd) as [w|];
    simpl; repeat case_bool_decide; simpl; done.
Qed.

(** X22. Repeating an update is harmless: sending the same request a
    second time returns the same alert and leaves the store exactly as
    the first call left it. *)
Theorem update_alert_status_idempotent alert_id upd u db a :
  User.role u ∈ ["analyst"; "admin"] ->
  alerts db !! alert_id = Some a ->
  let r1 := update_alert_status alert_id upd u db in
  update_alert_status alert_id upd u r1.2 = r1.
Proof.
  intros Hu Ha r1. subst r1.
  rewrite (update_alert_status_ok alert_id upd u db a Hu Ha). simpl.
  rewrite (update_alert_status_ok alert_id upd u _ (apply_update upd a) Hu)
    by apply lookup_insert_eq.
  simpl. by rewrite apply_update_idempotent, insert_insert_eq.
Qed.

Lemma update_alert_status_idempotent_witness :
  let upd := AlertUpdate.mk (Some "investigating") (Some "Jean Dupont") in
  let r1 := update_alert_status 1 upd Examples.analyst_jean
              (Examples.db_with "open" None) in
  update_alert_status 1 upd Examples.analyst_jean r1.2 = r1.
Proof.
  apply (update_alert_status_idempotent 1
           (AlertUpdate.mk (Some "investigating") (Some "Jean Dupont"))
           Examples.analyst_jean (Examples.db_with "open" None)
           (Examples.stored_alert "open" None)).
  - apply list_elem_of_here.
  - reflexivity.
Defined.

(** X23. A request that carries neither a status nor an assignee (both
    absent or empty) succeeds, returns the stored alert and leaves the
    store as it was. *)
Theorem update_alert_status_empty_request alert_id upd u db a :
  User.role u ∈ ["analyst"; "admin"] ->
  alerts db !! alert_id = Some a ->
  truthy (AlertUpdate.status upd) = false ->
  truthy (AlertUpdate.assigned_to upd) = false ->
  update_alert_status alert_id upd u db = (inr a, db).
Proof.
  intros Hu Ha Hs Hw.
  rewrite (update_alert_status_ok alert_id upd u db a Hu Ha).
  assert (Hid : apply_update upd a = a).
  { unfold apply_update. rewrite Hw.
    destruct (AlertUpdate.status upd) as [s|]; [rewrite Hs|]; by destruct a. }
  rewrite Hid, insert_id by done. by destruct db.
Qed.

Lemma update_alert_status_empty_request_witness :
  update_alert_status 1 (AlertUpdate.mk (Some "") None) Examples.analyst_jean
    (Examples.db_with "open" None)
  = (inr (Examples.stored_alert "open" None), Examples.db_with "open" None).
Proof.
  apply (update_alert_status_empty_request 1 (AlertUpdate.mk (Some "") None)
           Examples.analyst_jean (Examples.db_with "open" None)
           (Examples.stored_alert "open" None)).
  - apply list_elem_of_here.
  - reflexivity.
  - reflexivity.
  - reflexivity.
Defined.

End StatusEndpoint.

(** ** The store under ingestion *)

Section Store.
Import Backend.
Variable predict_fraud : TransactionCreate.t -> Q.
Variable format_message : Q -> string.

Lemma db_ok_fresh db :
  db_ok db ->
  transactions db !! next_transaction_id db = None /\
  alerts db !! next_alert_id db = None.
Proof.
  intros [Ht Ha]. split.
  - destruct (transactions db !! next_transaction_id db) as [t|] eqn:H; [|done].
    apply Ht in H. lia.
  - destruct (alerts db !! next_alert_id db) as [a|] eqn:H; [|done].
    apply Ha in H. lia.
Qed.

Lemma db_ok_add_transaction e utcnow db :
  db_ok db -> db_ok (add_transaction predict_fraud format_message e utcnow db).2.
Proof.
  intros [Ht Ha]. rewrite add_transaction_eq. split; simpl.
  - intros k t. rewrite lookup_insert. case_decide as Hk.
    + intros [= <-]. subst k. simpl. split; [done | lia].
    + intros H. apply Ht in H. split; [tauto | lia].
  - intros k a.
    destruct (Qgtb (predict_fraud e) fraud_threshold).
    + rewrite lookup_insert. case_decide as Hk.
      * intros [= <-]. subst k. simpl. split; [done|]. split; [lia|].
        rewrite lookup_insert_eq. by eexists.
      * intros H. apply Ha in H as (? & ? & [t Htx]).
        split; [done|]. split; [lia|].
        rewrite lookup_insert. case_decide; by eexists.
    + intros H. apply Ha in H as (? & ? & [t Htx]).
      split; [done|]. split; [lia|].
      rewrite lookup_insert. case_decide; by eexists.
Qed.

Lemma db_ok_update_alert_status alert_id upd u db :
  db_ok db -> db_ok (update_alert_status alert_id upd u db).2.
Proof.
  intros Hok. unfold update_alert_status.
  destruct (get_analyst_or_admin_user u); [done|].
  destruct (alerts db !! alert_id) as [a0|] eqn:Ha0; [|done].
  destruct Hok as [Ht Ha]. split; simpl; [done|].
  intros k a. rewrite lookup_insert. case_decide as Hk; [|apply Ha].
  intros [= <-]. subst k. apply Ha in Ha0. done.
Qed.

(** X24. The store stays well formed: starting from the empty store,
    after any ingestion and any status update every row sits under its
    own id, below the next key of its table, and every alert points to
    a stored transaction. *)
Theorem db_ok_preserved db :
  db_ok db ->
  (forall e utcnow,
     db_ok (add_transaction predict_fraud format_message e utcnow db).2) /\
  (forall alert_id upd u, db_ok (update_alert_status alert_id upd u db).2) /\
  db_ok empty_db.
Proof.
  intros Hok. split; [intros; by apply db_ok_add_transaction|].
  split; [intros; by apply db_ok_update_alert_status|].
  split; intros k x H; simpl in H; by rewrite lookup_empty in H.
Qed.

(** X25. On a well-formed store an ingestion overwrites nothing: every
    transaction and alert stored before is still there, the returned
    transaction is stored under its id, the transaction table grows by
    exactly one row and the alert table by one row when the score
    exceeds the threshold and by none otherwise. *)
Theorem add_transaction_extends e utcnow db :
  db_ok db ->
  let r := add_transaction predict_fraud format_message e utcnow db in
  (forall k t, transactions db !! k = Some t -> transactions r.2 !! k = Some t) /\
  (forall k a, alerts db !! k = Some a -> alerts r.2 !! k = Some a) /\
  transactions r.2 !! Transaction.id r.1 = Some r.1 /\
  size (transactions r.2) = S (size (transactions db)) /\
  size (alerts r.2) =
    size (alerts db) + (if Qgtb (predict_fraud e) fraud_threshold then 1 else 0).
Proof.
  intros Hok r. subst r. destruct (db_ok_fresh db Hok) as [Hft Hfa].
  rewrite add_transaction_eq. simpl.
  split; [|split; [|split; [|split]]].
  - intros k t H. rewrite lookup_insert_ne; [done|]. congruence.
  - intros k a H. destruct (Qgtb _ _); [|done].
    rewrite lookup_insert_ne; [done|]. congruence.
  - apply lookup_insert_eq.
  - by rewrite map_size_insert_None.
  - destruct (Qgtb _ _); [|lia]. rewrite map_size_insert_None by done. lia.
Qed.

(** X26. [get_transactions_by_banque] returns exactly the stored
    transactions of the bank; the transaction an ingestion returns is
    found under its own bank right away and under no other bank. *)
Theorem get_transactions_by_banque_spec db :
  (forall b t,
     t ∈ get_transactions_by_banque b db <->
     exists k, transactions db !! k = Some t /\ Transaction.banque_id t = b) /\
  (forall e utcnow,
     let r := add_transaction predict_fraud format_message e utcnow db in
     r.1 ∈ get_transactions_by_banque (TransactionCreate.banque_id e) r.2 /\
     forall b, b <> TransactionCreate.banque_id e ->
       r.1 ∉ get_transactions_by_banque b r.2).
Proof.
  assert (Hspec : forall db0 b t,
     t ∈ get_transactions_by_banque b db0 <->
     exists k, transactions db0 !! k = Some t /\ Transaction.banque_id t = b).
  { intros db0 b t. unfold get_transactions_by_banque.
    rewrite list_elem_of_filter, list_elem_of_fmap. split.
    - intros [Hb ([k t'] & -> & Hin)]. apply elem_of_map_to_list in Hin.
      by exists k.
    - intros (k & Hk & Hb). split; [done|]. exists (k, t).
      split; [done|]. by apply elem_of_map_to_list. }
  split; [apply Hspec|]. intros e utcnow r. subst r. split.
  - apply Hspec. rewrite add_transaction_eq. simpl.
    eexists. split; [apply lookup_insert_eq | done].
  - intros b Hb Hin. apply Hspec in Hin as (k & _ & Hbank).
    rewrite add_transaction_eq in Hbank. simpl in Hbank. congruence.
Qed.

End Store.

Lemma db_ok_preserved_witness :
  (forall e utcnow,
     db_ok (Backend.add_transaction (fun _ => 0.9%Q) Examples.format_message
              e utcnow Backend.empty_db).2) /\
  (forall alert_id upd u,
     db_ok (Backend.update_alert_status alert_id upd u Backend.empty_db).2) /\
  db_ok Backend.empty_db.
Proof.
  apply (db_ok_preserved (fun _ => 0.9%Q) Examples.format_message Backend.empty_db).
  split; intros k x H; simpl in H; by rewrite lookup_empty in H.
Defined.

Lemma add_transaction_extends_witness :
  let r := Backend.add_transaction (fun _ => 0.9%Q) Examples.format_message
             Examples.payload 0 Backend.empty_db in
  (forall k t, Backend.transactions Backend.empty_db !! k = Some t ->
     Backend.transactions r.2 !! k = Some t) /\
  (forall k a, Backend.alerts Backend.empty_db !! k = Some a ->
     Backend.alerts r.2 !! k = Some a) /\
  Backend.transactions r.2 !! Backend.Transaction.id r.1 = Some r.1 /\
  size (Backend.transactions r.2) = S (size (Backend.transactions Backend.empty_db)) /\
  size (Backend.alerts r.2) =
    size (Backend.alerts Backend.empty_db) +
    (if Qgtb 0.9 Backend.fraud_threshold then 1 else 0).
Proof.
  apply (add_transaction_extends (fun _ => 0.9%Q) Examples.format_message
           Examples.payload 0 Backend.empty_db).
  split; intros k x H; simpl in H; by rewrite lookup_empty in H.
Defined.

(** ** The scoring service *)

Section Scoring.
Import Backend.
Context {Model Scaler : Type}.
Variable run : Model -> Scaler -> TransactionCreate.t -> option Q.
Variable format_message : Q -> string.

(** X27. The scoring service fails open: when the model or the scaler
    could not be loaded, or the prediction raises, [predict_fraud]
    answers 0, so [add_transaction] stores the transaction as not
    fraudulent and creates no alert. *)
Theorem predict_fraud_fails_open model scaler e utcnow db :
  (model = None \/ scaler = None \/
   exists m s, model = Some m /\ scaler = Some s /\ run m s e = None) ->
  let r := add_transaction (predict_fraud run model scaler) format_message
             e utcnow db in
  predict_fraud run model scaler e = 0%Q /\
  Transaction.is_fraud r.1 = false /\
  Transaction.fraud_probability r.1 = 0%Q /\
  alerts r.2 = alerts db.
Proof.
  intros H r. subst r.
  assert (H0 : predict_fraud run model scaler e = 0%Q).
  { unfold predict_fraud.
    destruct H as [->|[->|(m & s & -> & -> & ->)]]; [done| |done].
    by destruct model. }
  rewrite add_transaction_eq. unfold transaction_row. simpl. rewrite !H0.
  change (Qgtb 0 fraud_threshold) with false. done.
Qed.

End Scoring.

Lemma predict_fraud_fails_open_witness :
  let r := Backend.add_transaction
             (Backend.predict_fraud (fun (_ _ : unit) _ => Some 0.99%Q) None (Some tt))
             Examples.format_message Examples.payload 0 Backend.empty_db in
  Backend.predict_fraud (fun (_ _ : unit) _ => Some 0.99%Q) None (Some tt)
    Examples.payload = 0%Q /\
  Backend.Transaction.is_fraud r.1 = false /\
  Backend.Transaction.fraud_probability r.1 = 0%Q /\
  Backend.alerts r.2 = Backend.alerts Backend.empty_db.
Proof.
  apply (predict_fraud_fails_open (fun (_ _ : unit) _ => Some 0.99%Q)
           Examples.format_message None (Some tt) Examples.payload 0
           Backend.empty_db).
  by left.
Defined.

(** ** The connection table of the WebSocket manager *)

Section Connections.
Import Backend.
Implicit Types d : list (string * list nat).
Implicit Types c : list nat.
Implicit Types u : string.

Lemma get_None_keys u d : ConnectionManager.get u d = None <-> u ∉ d.*1.
Proof.
  induction d as [|[v cv] d IH]; simpl.
  - split; [intros _; apply not_elem_of_nil | done].
  - rewrite not_elem_of_cons. case_decide as Hv.
    + split; [done | intros [? _]; congruence].
    + rewrite IH. split; [intros ?; split; [congruence | done] | tauto].
Qed.

Lemma get_Some_elem u d c : ConnectionManager.get u d = Some c -> (u, c) ∈ d.
Proof.
  induction d as [|[v cv] d IH]; simpl; [done|].
  case_decide as Hv.
  - intros [= ->]. subst. left.
  - intros H. right. by apply IH.
Qed.

Lemma get_set u' u c d :
  ConnectionManager.get u' (ConnectionManager.set u c d) =
  if decide (u' = u) then Some c else ConnectionManager.get u' d.
Proof.
  induction d as [|[v cv] d IH]; simpl.
  - repeat case_decide; congruence.
  - destruct (decide (v = u)) as [->|Hv]; simpl.
    + repeat case_decide; congruence.
    + rewrite IH. repeat case_decide; congruence.
Qed.

Lemma set_set u c c0 d :
  ConnectionManager.set u c (ConnectionManager.set u c0 d)
  = ConnectionManager.set u c d.
Proof.
  induction d as [|[v cv] d IH]; simpl.
  - by rewrite decide_True.
  - destruct (decide (v = u)) as [->|Hv]; simpl.
    + by rewrite decide_True.
    + by rewrite decide_False, IH.
Qed.

Lemma set_get_id u c d :
  ConnectionManager.get u d = Some c -> ConnectionManager.set u c d = d.
Proof.
  induction d as [|[v cv] d IH]; simpl; [done|].
  case_decide as Hv; [by intros [= ->] | intros H; by rewrite IH].
Qed.

Lemma set_new u c d :
  ConnectionManager.get u d = None ->
  ConnectionManager.set u c d = (d ++ [(u, c)])%list.
Proof.
  induction d as [|[v cv] d IH]; simpl; [done|].
  case_decide as Hv; [done | intros H; by rewrite IH].
Qed.

Lemma del_new u c d :
  ConnectionManager.get u d = None ->
  ConnectionManager.del u (d ++ [(u, c)])%list = d.
Proof.
  induction d as [|[v cv] d IH]; simpl.
  - by rewrite decide_True.
  - case_decide as Hv; [done | intros H; by rewrite IH].
Qed.

Lemma connect_eq websocket u d :
  ConnectionManager.connect websocket u d =
  ConnectionManager.set u
    (default [] (ConnectionManager.get u d) ++ [websocket])%list d.
Proof.
  unfold ConnectionManager.connect.
  destruct (ConnectionManager.get u d) as [c|] eqn:Hget.
  - by rewrite Hget.
  - by rewrite get_set, decide_True, set_set.
Qed.

Lemma set_keys_NoDup u c d :
  NoDup d.*1 -> NoDup (ConnectionManager.set u c d).*1.
Proof.
  intros Hnd. destruct (ConnectionManager.get u d) as [c0|] eqn:Hget.
  - assert (Hk : (ConnectionManager.set u c d).*1 = d.*1); [|by rewrite Hk].
    clear Hnd. revert Hget. induction d as [|[v cv] d IH]; simpl; [done|].
    case_decide as Hv; [by subst | intros H; simpl; f_equal; by apply IH].
  - rewrite set_new, fmap_app by done. simpl.
    apply NoDup_app. split; [done|]. split; [|apply NoDup_singleton].
    intros x Hx Hx'. apply list_elem_of_singleton in Hx' as ->.
    by apply get_None_keys in Hget.
Qed.

Lemma set_elem u c d u' c' :
  NoDup d.*1 ->
  (u', c') ∈ ConnectionManager.set u c d ->
  u' = u /\ c' = c \/ (u', c') ∈ d /\ u' <> u.
Proof.
  induction d as [|[v cv] d IH]; simpl; intros Hnd Hin.
  - apply list_elem_of_singleton in Hin as [= -> ->]. by left.
  - apply NoDup_cons in Hnd as [Hv Hnd].
    destruct (decide (v = u)) as [->|Hne].
    + apply elem_of_cons in Hin as [[= -> ->]|Hin]; [by left|].
      right. split; [by right|]. intros ->. apply Hv.
      apply list_elem_of_fmap. by exists (u, c').
    + apply elem_of_cons in Hin as [[= -> ->]|Hin].
      * right. split; [left | done].
      * destruct (IH Hnd Hin) as [?|[? ?]]; [by left|].
        right. split; [by right | done].
Qed.

Lemma del_keys_NoDup u d : NoDup d.*1 -> NoDup (ConnectionManager.del u d).*1.
Proof.
  induction d as [|[v cv] d IH]; simpl; [done|].
  intros [Hv Hnd]%NoDup_cons. case_decide; [done|].
  simpl. apply NoDup_cons. split; [|by apply IH].
  intros Hin. apply Hv. clear -Hin.
  induction d as [|[w cw] d IH]; simpl in *; [done|].
  case_decide; [by right|].
  apply elem_of_cons in Hin as [->|Hin]; [left | right; by apply IH].
Qed.

Lemma del_elem u d u' c' :
  NoDup d.*1 ->
  (u', c') ∈ ConnectionManager.del u d -> (u', c') ∈ d /\ u' <> u.
Proof.
  induction d as [|[v cv] d IH]; simpl; [by intros _ ?%elem_of_nil|].
  intros [Hv Hnd]%NoDup_cons. case_decide as Hvu.
  - subst v. intros Hin. split; [by right|]. intros ->. apply Hv.
    apply list_elem_of_fmap. by exists (u, c').
  - intros [[= -> ->]|Hin]%elem_of_cons; [split; [left | done]|].
    destruct (IH Hnd Hin). split; [by right | done].
Qed.

Lemma find_user_None websocket d :
  ConnectionManager.find_user websocket d = None <-> ~ registered websocket d.
Proof.
  unfold registered. induction d as [|[v cv] d IH]; simpl.
  - split; [intros _ (u & c & Hin & _); by apply elem_of_nil in Hin | done].
  - case_bool_decide as Hin.
    + split; [done|]. intros Hno. exfalso. apply Hno. exists v, cv.
      split; [left | done].
    + rewrite IH. split.
      * intros Hno (u & c & [[= -> ->]|Hd]%elem_of_cons & Hc); [done|].
        apply Hno. by exists u, c.
      * intros Hno (u & c & Hd & Hc). apply Hno. exists u, c.
        split; [by right | done].
Qed.

Lemma find_user_Some websocket d u :
  NoDup d.*1 ->
  ConnectionManager.find_user websocket d = Some u ->
  exists c, ConnectionManager.get u d = Some c /\ websocket ∈ c.
Proof.
  induction d as [|[v cv] d IH]; simpl; [done|].
  intros [Hv Hnd]%NoDup_cons. case_bool_decide as Hin.
  - intros [= ->]. exists cv. by rewrite decide_True.
  - intros Hf. destruct (IH Hnd Hf) as (c & Hget & Hc). exists c.
    rewrite decide_False; [done|]. intros ->. apply Hv.
    apply get_Some_elem in Hget. apply list_elem_of_fmap. by exists (u, c).
Qed.

Lemma find_user_set websocket u c d :
  ~ registered websocket d -> websocket ∈ c ->
  ConnectionManager.find_user websocket (ConnectionManager.set u c d) = Some u.
Proof.
  unfold registered. induction d as [|[v cv] d IH]; simpl; intros Hno Hc.
  - by rewrite bool_decide_eq_true_2.
  - assert (Hcv : websocket ∉ cv).
    { intros Hin. apply Hno. exists v, cv. split; [left | done]. }
    assert (Hd : ~ exists u0 c0, (u0, c0) ∈ d /\ websocket ∈ c0).
    { intros (u0 & c0 & Hin & Hc0). apply Hno. exists u0, c0.
      split; [by right | done]. }
    case_decide as Hv; simpl.
    + subst. by rewrite bool_decide_eq_true_2.
    + rewrite bool_decide_eq_false_2 by done. by apply IH.
Qed.

Lemma remove_not_in (x : nat) (l : list nat) :
  x ∉ l -> ConnectionManager.remove x l = l.
Proof.
  induction l as [|y l IH]; simpl; [done|].
  intros [Hy Hl]%not_elem_of_cons. rewrite decide_False by done.
  by rewrite IH.
Qed.

Lemma remove_snoc (x : nat) (l : list nat) :
  x ∉ l -> ConnectionManager.remove x (l ++ [x]) = l.
Proof.
  induction l as [|y l IH]; simpl.
  - by rewrite decide_True.
  - intros [Hy Hl]%not_elem_of_cons. rewrite decide_False by done.
    by rewrite IH.
Qed.

Lemma remove_length (x : nat) (l : list nat) :
  x ∈ l -> S (length (ConnectionManager.remove x l)) = length l.
Proof.
  induction l as [|y l IH]; simpl; [by intros ?%elem_of_nil|].
  case_decide as Hy; [done|].
  intros [->|Hin]%elem_of_cons; [done|]. simpl. by rewrite IH.
Qed.

Lemma connection_count_set u c c' d :
  ConnectionManager.get u d = Some c ->
  connection_count (ConnectionManager.set u c' d) + length c
  = connection_count d + length c'.
Proof.
  unfold connection_count.
  induction d as [|[v cv] d IH]; simpl; [done|].
  case_decide as Hv.
  - intros [= ->]. simpl. lia.
  - intros H. simpl. specialize (IH H). lia.
Qed.

Lemma connection_count_del u d :
  ConnectionManager.get u d = Some [] ->
  connection_count (ConnectionManager.del u d) = connection_count d.
Proof.
  unfold connection_count.
  induction d as [|[v cv] d IH]; simpl; [done|].
  case_decide as Hv.
  - by intros [= ->].
  - intros H. simpl. by rewrite IH.
Qed.

(** X28. [connect] and [disconnect] keep the connection table in
    order: one entry per user id and, as long as connections are
    registered under non-empty user ids, no entry without a connection
    (the entry of a user whose last connection closes is deleted). *)
Theorem manager_ok_preserved d :
  manager_ok d ->
  (forall websocket u, u <> "" ->
     manager_ok (ConnectionManager.connect websocket u d)) /\
  (forall websocket, manager_ok (ConnectionManager.disconnect websocket d)) /\
  manager_ok ConnectionManager.empty.
Proof.
  intros [Hnd Hok]. split; [|split].
  - intros websocket u Hu. rewrite connect_eq. split.
    + by apply set_keys_NoDup.
    + intros u' c' Hin.
      apply (set_elem _ _ _ _ _ Hnd) in Hin as [[-> ->]|[Hin _]].
      * split; [done|]. intros Hnil. by apply app_eq_nil in Hnil as [_ ?].
      * by apply Hok.
  - intros websocket. unfold ConnectionManager.disconnect.
    destruct (ConnectionManager.find_user websocket d) as [u|] eqn:Hf; [|done].
    destruct (find_user_Some websocket d u Hnd Hf) as (c & Hget & Hc).
    rewrite Hget, get_set, decide_True by done. simpl.
    destruct (Hok u c (get_Some_elem u d c Hget)) as [Hu _].
    rewrite bool_decide_eq_false_2 by done. simpl.
    pose proof (set_keys_NoDup u (ConnectionManager.remove websocket c) d Hnd)
      as Hnd1.
    case_bool_decide as Hempty.
    + split; [by apply del_keys_NoDup|].
      intros u' c' Hin. apply (del_elem _ _ _ _ Hnd1) in Hin as [Hin Hne].
      apply (set_elem _ _ _ _ _ Hnd) in Hin as [[-> _]|[Hin _]];
        [done | by apply Hok].
    + split; [done|].
      intros u' c' Hin.
      apply (set_elem _ _ _ _ _ Hnd) in Hin as [[-> ->]|[Hin _]].
      * done.
      * by apply Hok.
  - split; [apply NoDup_nil_2 | by intros u c ?%elem_of_nil].
Qed.

(** X29. After [connect(websocket, user_id)] the user's list is the
    former one followed by the new connection and the lists of the other
    users are as before. [send_personal_message] attempts every
    connection of the addressed user, in order and whether or not
    earlier ones raised, and none for an unknown user. *)
Theorem connect_then_send websocket u d u' send_json :
  ConnectionManager.get u' (ConnectionManager.connect websocket u d) =
    (if decide (u' = u)
     then Some (default [] (ConnectionManager.get u d) ++ [websocket])%list
     else ConnectionManager.get u' d) /\
  (ConnectionManager.send_personal_message send_json u' d).*1
    = default [] (ConnectionManager.get u' d) /\
  (ConnectionManager.send_personal_message send_json u' d).*2
    = send_json <$> default [] (ConnectionManager.get u' d) /\
  (ConnectionManager.send_personal_message send_json u
     (ConnectionManager.connect websocket u d)).*1
    = (default [] (ConnectionManager.get u d) ++ [websocket])%list.
Proof.
  assert (Hsend : forall d0 v,
    (ConnectionManager.send_personal_message send_json v d0).*1
    = default [] (ConnectionManager.get v d0)).
  { intros d0 v. unfold ConnectionManager.send_personal_message.
    destruct (ConnectionManager.get v d0) as [c|]; simpl; [|done].
    rewrite <- list_fmap_compose. by rewrite list_fmap_id. }
  split; [by rewrite connect_eq, get_set|]. split; [apply Hsend|].
  split.
  - unfold ConnectionManager.send_personal_message.
    destruct (ConnectionManager.get u' d) as [c|]; simpl; [|done].
    by rewrite <- list_fmap_compose.
  - by rewrite Hsend, connect_eq, get_set, decide_True.
Qed.

(** X30. On a table in order, [disconnect] of a connection that is not
    registered changes nothing, registering a new connection and
    disconnecting it again restores the table, and [disconnect] of a
    registered connection removes exactly one registration. *)
Theorem disconnect_effects websocket d :
  manager_ok d ->
  (~ registered websocket d ->
     ConnectionManager.disconnect websocket d = d /\
     forall u, u <> "" ->
       ConnectionManager.disconnect websocket
         (ConnectionManager.connect websocket u d) = d) /\
  (registered websocket d ->
     S (connection_count (ConnectionManager.disconnect websocket d))
     = connection_count d).
Proof.
  intros [Hnd Hok]. split.
  - intros Hno. split.
    + unfold ConnectionManager.disconnect.
      by rewrite (proj2 (find_user_None websocket d) Hno).
    + intros u Hu. rewrite connect_eq. unfold ConnectionManager.disconnect.
      rewrite find_user_set
        by (done || (apply elem_of_app; right; apply list_elem_of_here)).
      rewrite get_set, decide_True by done. simpl.
      rewrite set_set, get_set, decide_True by done. simpl.
      rewrite bool_decide_eq_false_2 by done. simpl.
      destruct (ConnectionManager.get u d) as [c|] eqn:Hget; simpl.
      * assert (Hc : websocket ∉ c).
        { intros Hin. apply Hno. exists u, c.
          split; [by apply get_Some_elem | done]. }
        rewrite remove_snoc by done.
        destruct (Hok u c (get_Some_elem u d c Hget)) as [_ Hne].
        rewrite bool_decide_eq_false_2 by done. by apply set_get_id.
      * rewrite decide_True by done. simpl.
        rewrite set_new by done. by apply del_new.
  - intros Hreg. unfold ConnectionManager.disconnect.
    destruct (ConnectionManager.find_user websocket d) as [u|] eqn:Hf.
    2: { by apply find_user_None in Hf. }
    destruct (find_user_Some websocket d u Hnd Hf) as (c & Hget & Hc).
    rewrite Hget, get_set, decide_True by done. simpl.
    pose proof (connection_count_set u c (ConnectionManager.remove websocket c)
                  d Hget) as Hcount.
    pose proof (remove_length websocket c Hc) as Hlen.
    destruct (_ && _) eqn:Hdel.
    + apply andb_true_iff in Hdel as [_ Hempty%bool_decide_eq_true].
      rewrite connection_count_del; [lia|].
      by rewrite get_set, decide_True, Hempty.
    + lia.
Qed.

End Connections.

Lemma manager_ok_preserved_witness :
  let d := [("2", [10; 11])] in
  (forall websocket u, u <> "" ->
     manager_ok (Backend.ConnectionManager.connect websocket u d)) /\
  (forall websocket, manager_ok (Backend.ConnectionManager.disconnect websocket d)) /\
  manager_ok Backend.ConnectionManager.empty.
Proof.
  apply (manager_ok_preserved [("2", [10; 11])]).
  split.
  - apply NoDup_singleton.
  - intros u c Hin. apply list_elem_of_singleton in Hin as [= -> ->]. done.
Defined.

Lemma disconnect_effects_witness :
  let d := [("2", [10; 11])] in
  (~ registered 10 d ->
     Backend.ConnectionManager.disconnect 10 d = d /\
     forall u, u <> "" ->
       Backend.ConnectionManager.disconnect 10
         (Backend.ConnectionManager.connect 10 u d) = d) /\
  (registered 10 d ->
     S (connection_count (Backend.ConnectionManager.disconnect 10 d))
     = connection_count d).
Proof.
  apply (disconnect_effects 10 [("2", [10; 11])]).
  split.
  - apply NoDup_singleton.
  - intros u c Hin. apply list_elem_of_singleton in Hin as [= -> ->]. done.
Defined.
